(** * Semoxy: request guards, error envelopes and the account endpoints

    A shallow embedding of [semoxy/util.py] (error taxonomy, [json_error],
    the guard decorators) and of [semoxy/endpoints/auth.py] (the account
    handlers and [get_new_ticket]).

    Python objects that reach a JSON response are values of [Py.value];
    a Python [dict] is an association list in insertion order, because the
    order of the keys decides the bytes of the serialised body.  Handlers
    are computations of the monad [M]: they thread the [World] (document
    store, random source, invocation counter) and either return a value
    or raise a Python exception. *)

From Stdlib Require Import String Ascii List ZArith Lia Bool DecimalString.
Import ListNotations.
Local Open Scope string_scope.
Local Open Scope Z_scope.
Set Warnings "-register-all".

(** ** Python values *)

Module Py.

Inductive value : Type :=
| VNone
| VBool (b : bool)
| VInt (z : Z)
| VStr (s : string)
| VList (l : list value)
| VDict (d : list (string * value))
| VObjectId (hex : string)
| VSet (l : list value).

(** A [dict] with [str] keys, in insertion order. *)
Definition dict : Type := list (string * value).

Inductive exn : Type :=
| KeyError (key : string)
| AttributeError (msg : string)
| TypeError (msg : string)
| ValueError (msg : string).

Inductive result (A : Type) : Type :=
| Ok (a : A)
| Raise (e : exn).
Arguments Ok {A} a.
Arguments Raise {A} e.

(** [x in keys] for a list of strings *)
Fixpoint str_in (x : string) (keys : list string) : bool :=
  match keys with
  | [] => false
  | k :: rest => if String.eqb x k then true else str_in x rest
  end.

Definition dict_keys (d : dict) : list string := map fst d.

(** [k in d.keys()] *)
Definition dict_contains (d : dict) (k : string) : bool :=
  str_in k (dict_keys d).

(** [d.get(k)] *)
Fixpoint dict_get (d : dict) (k : string) : option value :=
  match d with
  | [] => None
  | (k', v) :: rest => if String.eqb k' k then Some v else dict_get rest k
  end.

(** [d[k]]: a missing key raises [KeyError]. *)
Definition dict_getitem (d : dict) (k : string) : result value :=
  match dict_get d k with
  | Some v => Ok v
  | None => Raise (KeyError k)
  end.

(** [d[k] = v]: an existing key keeps its position, a new key goes last. *)
Fixpoint dict_set (d : dict) (k : string) (v : value) : dict :=
  match d with
  | [] => [(k, v)]
  | (k', v') :: rest =>
      if String.eqb k' k then (k', v) :: rest else (k', v') :: dict_set rest k v
  end.

(** A dict display [{k1: v1, ...}] or [{**d, k1: v1, ...}]: the items are
    stored from left to right. *)
Definition dict_display (base : dict) (items : list (string * value)) : dict :=
  fold_left (fun acc kv => dict_set acc (fst kv) (snd kv)) items base.

(** Truth value of an object, as [if x:] and [x or y] test it. *)
Definition truthy (v : value) : bool :=
  match v with
  | VNone => false
  | VBool b => b
  | VInt z => negb (Z.eqb z 0)
  | VStr s => negb (String.eqb s "")
  | VList l => match l with [] => false | _ => true end
  | VDict d => match d with [] => false | _ => true end
  | VObjectId _ => true
  | VSet l => match l with [] => false | _ => true end
  end.

(** The name Python prints for the type of a value in its error messages. *)
Definition type_name (v : value) : string :=
  match v with
  | VNone => "NoneType"
  | VBool _ => "bool"
  | VInt _ => "int"
  | VStr _ => "str"
  | VList _ => "list"
  | VDict _ => "dict"
  | VObjectId _ => "ObjectId"
  | VSet _ => "set"
  end.

End Py.
Export Py.

(** ** [json.dumps]

    The encoder of the Python standard library with its default settings
    ([ensure_ascii=True], separators [", "] and [": "]).  A character of
    a string stands for the code point of the same number. *)

Module Json.

Definition quote : string := String (ascii_of_nat 34) EmptyString.

Definition hex_digit (n : nat) : ascii :=
  match n with
  | 0 => "0" | 1 => "1" | 2 => "2" | 3 => "3" | 4 => "4" | 5 => "5"
  | 6 => "6" | 7 => "7" | 8 => "8" | 9 => "9" | 10 => "a" | 11 => "b"
  | 12 => "c" | 13 => "d" | 14 => "e" | _ => "f"
  end%nat%char.

(** ["\\u{0:04x}".format(n)] for a code point below 256. *)
Definition escape_u00 (c : ascii) : string :=
  let n := nat_of_ascii c in
  "\u00" ++ String (hex_digit (n / 16)) (String (hex_digit (n mod 16)) EmptyString).

Definition escape_char (c : ascii) : string :=
  let n := nat_of_ascii c in
  if Nat.eqb n 34 then "\" ++ quote
  else if Nat.eqb n 92 then "\\"
  else if Nat.eqb n 8 then "\b"
  else if Nat.eqb n 12 then "\f"
  else if Nat.eqb n 10 then "\n"
  else if Nat.eqb n 13 then "\r"
  else if Nat.eqb n 9 then "\t"
  else if (Nat.leb 32 n && Nat.leb n 126)%bool then String c EmptyString
  else escape_u00 c.

Fixpoint escape_string (s : string) : string :=
  match s with
  | EmptyString => EmptyString
  | String c rest => escape_char c ++ escape_string rest
  end.

(** [py_encode_basestring_ascii] *)
Definition encode_basestring_ascii (s : string) : string :=
  quote ++ escape_string s ++ quote.

Definition encode_int (z : Z) : string :=
  NilZero.string_of_int (Z.to_int z).

Fixpoint join (sep : string) (l : list string) : string :=
  match l with
  | [] => EmptyString
  | [x] => x
  | x :: rest => x ++ sep ++ join sep rest
  end.

End Json.

(** [serialize_objectids], the [default] hook handed to [json.dumps]:
    it is called on the objects the encoder does not know.  Its last
    line raises [ValueError] for any other object. *)
Definition serialize_objectids (v : value) : result value :=
  match v with
  | VObjectId hex => Ok (VStr hex)
  | VSet l => Ok (VList l)
  | _ => Raise (ValueError "value can't be serialized")
  end.

(** [json_dumps(s, default=serialize_objectids)].  The two kinds of
    object the encoder hands to the hook are encoded as the hook's
    answer is ([json_dumps_default] below). *)
Fixpoint json_dumps (v : value) : string :=
  match v with
  | VNone => "null"
  | VBool true => "true"
  | VBool false => "false"
  | VInt z => Json.encode_int z
  | VStr s => Json.encode_basestring_ascii s
  | VList l => "[" ++ Json.join ", " (map json_dumps l) ++ "]"
  | VDict d =>
      "{" ++ Json.join ", "
               (map (fun kv => match kv with
                               | (k, x) => Json.encode_basestring_ascii k ++ ": " ++ json_dumps x
                               end) d) ++ "}"
  | VObjectId hex => Json.encode_basestring_ascii hex
  | VSet l => "[" ++ Json.join ", " (map json_dumps l) ++ "]"
  end.

(** ** The world and the handler monad *)

(** A collection of the document store is the list of its documents. *)
Definition Collection : Type := list dict.
Definition Database : Type := string -> Collection.

(** [entropy] is the sequence of tokens the system's random source will
    hand out and [drawn] the number already taken; [invocations] counts
    the calls of observed route handlers. *)
Record World : Type := mkWorld {
  db : Database;
  entropy : nat -> string;
  drawn : nat;
  invocations : nat
}.

Definition M (A : Type) : Type := World -> result A * World.

Definition ret {A} (a : A) : M A := fun w => (Ok a, w).
Definition raise {A} (e : exn) : M A := fun w => (Raise e, w).
Definition bind {A B} (m : M A) (k : A -> M B) : M B :=
  fun w => match m w with
           | (Ok a, w') => k a w'
           | (Raise e, w') => (Raise e, w')
           end.
Definition lift {A} (r : result A) : M A := fun w => (r, w).

Declare Scope py_scope.
Delimit Scope py_scope with py.
Notation "x <- m ;; k" := (bind m (fun x => k))
  (at level 61, m at next level, right associativity) : py_scope.
Local Open Scope py_scope.

(** ** Requests and responses *)

(** Modelled from the spec: the classes [User], [Session] and
    [WebsocketTicket] of [semoxy/models] and the managed server object,
    none of which is defined in the two modules embedded here; the fields
    are those the spec's data model lists and the handlers read. *)
Record User : Type := mkUser {
  user_name : string;
  user_password_hash : string;
  user_permissions : value;
  user_root : bool
}.

Record Session : Type := mkSession {
  sid : string;
  userId : value;
  creation : value;
  expiration : value
}.

Record WebsocketTicket : Type := mkTicket {
  token : string;
  ticket_user : value;
  ticket_ip : string;
  ticket_agent : string
}.

Record Server : Type := mkServer {
  server_id : string;
  running : bool
}.

(** [req.ctx]: what the session middleware and the earlier guards have
    resolved; [None] where nothing was. *)
Record Ctx : Type := mkCtx {
  user : option User;
  session : option Session;
  server : option Server
}.

(** [sanic.request.Request].  [json] is the parsed body, [VNone] when the
    request has none; [headers] is sanic's case-insensitive header map. *)
Record Request : Type := mkRequest {
  json : value;
  ctx : Ctx;
  headers : list (string * string);
  ip : string
}.

(** The [*args, **kwargs] every decorated function passes on. *)
Record Args : Type := mkArgs {
  args : list value;
  kwargs : dict
}.

Record HTTPResponse : Type := mkResponse {
  body : string;
  status : Z;
  content_type : string
}.

Definition Handler : Type := Request -> Args -> M HTTPResponse.

Definition tick (w : World) : World :=
  mkWorld (db w) (entropy w) (drawn w) (S (invocations w)).

(** A handler whose every call is counted in the world. *)
Definition observed (f : Handler) : Handler :=
  fun req a w => f req a (tick w).

(** ** Error taxonomy and envelopes ([semoxy/util.py]) *)

Module APIError.
Definition ROOT_DISABLED : string * Z := ("root_disabled", 400).
Definition INVALID_CREDENTIALS : string * Z := ("invalid_credentials", 401).
Definition ALREADY_EXISTING : string * Z := ("already_existing", 400).
Definition INVALID_NAME : string * Z := ("invalid_name", 400).
Definition PORT_IN_USE : string * Z := ("port_in_use", 423).
Definition INVALID_SORT_DIRECTION : string * Z := ("invalid_sort_direction", 400).
Definition UNKNOWN : string * Z := ("unknown", 500).
Definition INVALID_VERSION : string * Z := ("invalid_version", 400).
Definition TOO_MUCH_RAM : string * Z := ("too_much_ram", 400).
Definition INVALID_PORT_TYPE : string * Z := ("invalid_port_type", 400).
Definition INVALID_PORT : string * Z := ("invalid_port", 400).
Definition ILLEGAL_SERVER_NAME : string * Z := ("illegal_server_name", 400).
Definition INVALID_JAVA_VERSION : string * Z := ("invalid_java_version", 400).
Definition SERVER_VERSION_POST_INSTALL : string * Z := ("server_version_post_install", 500).
Definition MISSING_VALUE : string * Z := ("missing_value", 400).
Definition INVALID_SERVER : string * Z := ("invalid_server", 404).
Definition INVALID_SERVER_STATUS : string * Z := ("invalid_server_status", 423).
Definition UNAUTHENTICATED : string * Z := ("unauthenticated", 401).
Definition NO_PERMISSION : string * Z := ("no_permission", 403).
Definition INVALID_SESSION : string * Z := ("invalid_session", 401).
Definition SESSION_EXPIRED : string * Z := ("session_expired", 401).
Definition INVALID_PAYLOAD_SCHEMA : string * Z := ("invalid_payload_schema", 400).

(** Every member of the class, in the order of the source. *)
Definition all : list (string * Z) :=
  [ ROOT_DISABLED; INVALID_CREDENTIALS; ALREADY_EXISTING; INVALID_NAME;
    PORT_IN_USE; INVALID_SORT_DIRECTION; UNKNOWN; INVALID_VERSION;
    TOO_MUCH_RAM; INVALID_PORT_TYPE; INVALID_PORT; ILLEGAL_SERVER_NAME;
    INVALID_JAVA_VERSION; SERVER_VERSION_POST_INSTALL; MISSING_VALUE;
    INVALID_SERVER; INVALID_SERVER_STATUS; UNAUTHENTICATED; NO_PERMISSION;
    INVALID_SESSION; SESSION_EXPIRED; INVALID_PAYLOAD_SCHEMA ].
End APIError.

(** [status=...] keyword with sanic's default of 200. *)
Definition status_or_default (s : option Z) : Z :=
  match s with Some n => n | None => 200 end.

(** [json_response(di, **kwargs)]: sanic's [json] with the encoder
    [json_dumps(s, default=serialize_objectids)]. *)
Definition json_response (di : value) (status : option Z) : HTTPResponse :=
  mkResponse (json_dumps di) (status_or_default status) "application/json".

(** [json_error(error, description, **additional)].  The names [error]
    and [description] are parameters of the function, so Python never
    lets them into [additional]. *)
Definition json_error (error : string * Z) (description : string)
    (additional : dict) : HTTPResponse :=
  json_response
    (VDict (dict_display additional
              [ ("error", VStr ("err_ " ++ fst error));
                ("description", VStr description) ]))
    (Some (snd error)).

(** ** The guard decorators ([semoxy/util.py]) *)

(** A keyword parameter declared [: bool = True], left out or given. *)
Definition bool_or_true (b : option bool) : bool :=
  match b with Some x => x | None => true end.

(** Attribute access on [req.ctx] for something no earlier step has set. *)
Definition ctx_attribute_error (name : string) : exn :=
  AttributeError ("'types.SimpleNamespace' object has no attribute '" ++ name ++ "'").

Section ServerEndpoint.

(** [Config.SEMOXY_INSTANCE.server_manager.get_server], the supervisor's
    lookup; the supervisor is an external collaborator. *)
Variable get_server : value -> M (option Server).

Definition with_server (req : Request) (s : Server) : Request :=
  mkRequest (json req)
            (mkCtx (user (ctx req)) (session (ctx req)) (Some s))
            (headers req) (ip req).

Definition server_endpoint (f : Handler) : Handler :=
  fun req a =>
    if negb (dict_contains (kwargs a) "i") then
      ret (json_error APIError.MISSING_VALUE
             "please specify the server id in the uri" [])
    else
      i <- lift (dict_getitem (kwargs a) "i") ;;
      srv <- get_server i ;;
      match srv with
      | None => ret (json_error APIError.INVALID_SERVER
                       "no server was found for your id" [])
      | Some s => f (with_server req s) a
      end.

End ServerEndpoint.

Definition requires_server_online (online : option bool) (f : Handler) : Handler :=
  let online := bool_or_true online in
  fun req a =>
    match server (ctx req) with
    | None => raise (ctx_attribute_error "server")
    | Some srv =>
        if negb (Bool.eqb online (running srv)) then
          ret (json_error APIError.INVALID_SERVER_STATUS
                 ("this endpoint requires the server to be "
                    ++ (if online then "online" else "offline")) [])
        else f req a
    end.

(** What calling a pydantic model class on keyword arguments gives:
    the object, or [pydantic.ValidationError] with its [errors()]. *)
Inductive validation (D : Type) : Type :=
| Valid (data : D)
| ValidationError (errors : value).
Arguments Valid {D} data.
Arguments ValidationError {D} errors.

(** [model] applied to the unpacked [req.json]: unpacking anything but a mapping is a
    [TypeError], which the [except] clause does not catch. *)
Definition bind_model {D : Type} (model : dict -> validation D)
    (f : Request -> D -> Args -> M HTTPResponse) : Handler :=
  fun req a =>
    match json req with
    | VDict d =>
        match model d with
        | ValidationError errors =>
            ret (json_error APIError.INVALID_PAYLOAD_SCHEMA
                   "invalid payload type" [("errors", errors)])
        | Valid data => f req data a
        end
    | v => raise (TypeError ("argument after ** must be a mapping, not "
                               ++ type_name v))
    end.

(** [req.json.keys()] *)
Definition json_keys_of (req : Request) : result (list string) :=
  match json req with
  | VDict d => Ok (dict_keys d)
  | v => Raise (AttributeError ("'" ++ type_name v
                                  ++ "' object has no attribute 'keys'"))
  end.

(** The [for prop in json_keys] loop with the call of [f] after it. *)
Fixpoint requires_post_params (json_keys : list string) (f : Handler) : Handler :=
  fun req a =>
    match json_keys with
    | [] => f req a
    | prop :: rest =>
        keys <- lift (json_keys_of req) ;;
        if negb (str_in prop keys) then
          ret (json_error APIError.MISSING_VALUE
                 ("you need to specify " ++ prop) [("field", VStr prop)])
        else requires_post_params rest f req a
    end.

(** Truth value of [req.ctx.user] / [req.ctx.session]: an object, or [None]. *)
Definition is_set {A} (o : option A) : bool :=
  match o with Some _ => true | None => false end.

Definition requires_login (logged_in : option bool) (f : Handler) : Handler :=
  let logged_in := bool_or_true logged_in in
  fun req a =>
    if logged_in && negb (is_set (user (ctx req))) then
      ret (json_error APIError.UNAUTHENTICATED
             "you need to be logged in to access this endpoint" [])
    else if negb logged_in && is_set (user (ctx req)) then
      ret (json_error APIError.NO_PERMISSION
             "you can't use this endpoint while logged in" [])
    else f req a.

(** ** The document store and the random source *)

(** Equality of two stored values, as an equality condition of a query
    compares them. *)
Fixpoint value_eqb (x y : value) : bool :=
  let fix list_eqb (l1 l2 : list value) : bool :=
    match l1, l2 with
    | [], [] => true
    | a :: l1', b :: l2' => value_eqb a b && list_eqb l1' l2'
    | _, _ => false
    end in
  let fix items_eqb (d1 d2 : list (string * value)) : bool :=
    match d1, d2 with
    | [], [] => true
    | (k1, a) :: d1', (k2, b) :: d2' =>
        String.eqb k1 k2 && value_eqb a b && items_eqb d1' d2'
    | _, _ => false
    end in
  match x, y with
  | VNone, VNone => true
  | VBool a, VBool b => Bool.eqb a b
  | VInt a, VInt b => Z.eqb a b
  | VStr a, VStr b => String.eqb a b
  | VList a, VList b => list_eqb a b
  | VDict a, VDict b => items_eqb a b
  | VObjectId a, VObjectId b => String.eqb a b
  | VSet a, VSet b => list_eqb a b
  | _, _ => false
  end.

(** A document satisfies a query when every field of the query is in the
    document with an equal value. *)
Definition matches (query doc : dict) : bool :=
  forallb (fun kv => match dict_get doc (fst kv) with
                     | Some v => value_eqb v (snd kv)
                     | None => false
                     end) query.

(** [collection.find_one(query)]: the first document that matches, or
    [None]. *)
Definition find_one (c : Collection) (query : dict) : option dict :=
  find (matches query) c.

(** [secrets.token_urlsafe(nbytes)]: the next token of the random source. *)
Definition token_urlsafe (nbytes : nat) : World -> string * World :=
  fun w => (entropy w (drawn w),
            mkWorld (db w) (entropy w) (S (drawn w)) (invocations w)).

(** ** The account endpoints ([semoxy/endpoints/auth.py]) *)

(** Modelled from the spec: [json_res], which [auth.py] imports from
    [semoxy/util.py] and that module does not define; it is taken to be
    the response builder of the module, [json_response], with the body
    and an optional [status]. *)
Definition json_res (di : value) (status : option Z) : HTTPResponse :=
  json_response di status.

(** [v[k]] for a string key. *)
Definition getitem (v : value) (k : string) : result value :=
  match v with
  | VDict d => dict_getitem d k
  | VList _ => Raise (TypeError "list indices must be integers or slices, not str")
  | VStr _ => Raise (TypeError "string indices must be integers")
  | _ => Raise (TypeError ("'" ++ type_name v ++ "' object is not subscriptable"))
  end.

Definition lower_char (c : ascii) : ascii :=
  let n := nat_of_ascii c in
  if (Nat.leb 65 n && Nat.leb n 90)%bool then ascii_of_nat (n + 32) else c.

Fixpoint lower (s : string) : string :=
  match s with
  | EmptyString => EmptyString
  | String c rest => String (lower_char c) (lower rest)
  end.

(** [req.headers.get(name)]: header names compare without regard to case. *)
Fixpoint headers_get (hs : list (string * string)) (name : string) : option string :=
  match hs with
  | [] => None
  | (k, v) :: rest =>
      if String.eqb (lower k) (lower name) then Some v else headers_get rest name
  end.

(** [req.headers[name]]: an absent header raises [KeyError]. *)
Definition headers_getitem (hs : list (string * string)) (name : string) : result string :=
  match headers_get hs name with
  | Some v => Ok v
  | None => Raise (KeyError name)
  end.

(** [x or y] on strings. *)
Definition str_or (x y : string) : string :=
  if truthy (VStr x) then x else y.

Definition wrong_credentials : HTTPResponse :=
  json_res (VDict (dict_display []
                     [ ("error", VStr "Wrong Credentials");
                       ("status", VInt 401);
                       ("description", VStr "either username or password are wrong") ]))
           (Some 401).

Section Account.

(** The methods of the model classes the handlers call, and [str]. *)
Variable fetch_by_name : value -> M (option User).
Variable check_password : User -> string -> M bool.
Variable create_session : User -> M Session.
Variable create_ticket : User -> string -> string -> M WebsocketTicket.
Variable py_str : value -> string.

(** The function under the decorators of [login_post]. *)
Definition login_post_handler : Handler :=
  fun req a =>
    username <- lift (getitem (json req) "username") ;;
    u <- fetch_by_name username ;;
    match u with
    | Some usr =>
        password <- lift (getitem (json req) "password") ;;
        ok <- check_password usr (py_str password) ;;
        if ok then
          s <- create_session usr ;;
          ret (json_res (VDict (dict_display []
                 [ ("success", VStr "logged in successfully");
                   ("data", VDict (dict_display [] [("sessionId", VStr (sid s))])) ]))
                 None)
        else ret wrong_credentials
    | None => ret wrong_credentials
    end.

Definition login_post : Handler :=
  requires_login (Some false)
    (requires_post_params ["username"; "password"] login_post_handler).

Definition check_session : Handler :=
  fun req a =>
    let out := dict_display [] [("loggedIn", VBool (is_set (session (ctx req))))] in
    let out :=
      match session (ctx req) with
      | Some s => dict_set (dict_set out "expiration" (expiration s))
                           "userId" (userId s)
      | None => out
      end in
    ret (json_res (VDict out) None).

(** The function under the decorator of [open_ticket].  Python looks up
    [req.ctx.user.create_ticket] before it evaluates the arguments. *)
Definition open_ticket_handler : Handler :=
  fun req a =>
    match user (ctx req) with
    | None => raise (AttributeError
                       "'NoneType' object has no attribute 'create_ticket'")
    | Some usr =>
        agent <- lift (headers_getitem (headers req) "User-Agent") ;;
        ticket <- create_ticket usr (ip req) (str_or agent "unknown agent") ;;
        ret (json_res (VDict (dict_display []
               [ ("success", VStr "ticket created");
                 ("data", VDict (dict_display [] [("token", VStr (token ticket))])) ]))
               None)
    end.

Definition open_ticket : Handler :=
  requires_login None open_ticket_handler.

End Account.

(** The [while] loop of [get_new_ticket]; it has no bound in the source,
    so [fuel] bounds the number of tests of its condition and [None]
    says that the fuel ran out before the loop ended. *)
Fixpoint get_new_ticket_loop (fuel : nat) (ticket : string) (w : World)
    : option (string * World) :=
  match fuel with
  | O => None
  | S fuel' =>
      if match find_one (db w "wsticket") [("ticket", VStr ticket)] with
         | Some doc => truthy (VDict doc)
         | None => false
         end
      then let (ticket', w') := token_urlsafe 24 w in
           get_new_ticket_loop fuel' ticket' w'
      else Some (ticket, w)
  end.

Definition get_new_ticket (fuel : nat) (w : World) : option (string * World) :=
  let (ticket, w') := token_urlsafe 24 w in
  get_new_ticket_loop fuel ticket w'.

(** ** The other account endpoints ([semoxy/endpoints/auth.py]) *)

(** [login_get] carries no guard and looks at the session only. *)
Definition login_get : Handler :=
  fun req a =>
    if negb (is_set (session (ctx req))) then
      ret (json_res (VDict (dict_display []
             [ ("error", VStr "Not Logged In");
               ("status", VInt 401);
               ("description", VStr "please login using POST to /account/login") ]))
             (Some 401))
    else
      ret (json_res (VDict (dict_display []
             [ ("info", VStr "you are already logged in");
               ("status", VInt 200) ]))
             None).

Section Logout.

(** [Session.logout], a method of the model class. *)
Variable session_logout : Session -> M unit.

(** The function under the decorator of [logout]. *)
Definition logout_handler : Handler :=
  fun req a =>
    match session (ctx req) with
    | None => raise (AttributeError "'NoneType' object has no attribute 'logout'")
    | Some s =>
        _ <- session_logout s ;;
        ret (json_res (VDict (dict_display []
               [ ("success", VStr "logged out successfully");
                 ("data", VDict (dict_display [] [])) ]))
               None)
    end.

Definition logout : Handler :=
  requires_login None logout_handler.

End Logout.

(** The function under the decorator of [fetch_me]. *)
Definition fetch_me_handler : Handler :=
  fun req a =>
    match user (ctx req) with
    | None => raise (AttributeError "'NoneType' object has no attribute 'name'")
    | Some usr =>
        ret (json_res (VDict (dict_display []
               [ ("username", VStr (user_name usr));
                 ("permissions", user_permissions usr) ]))
               None)
    end.

Definition fetch_me : Handler :=
  requires_login None fetch_me_handler.

(** ** [get_dummy_objid] ([semoxy/util.py]) *)

(** The [k] low hexadecimal digits of [n], the most significant first. *)
Fixpoint hex_of (k : nat) (n : Z) : string :=
  match k with
  | O => EmptyString
  | S k' => hex_of k' (n / 16)
              ++ String (Json.hex_digit (Z.to_nat (n mod 16))) EmptyString
  end.

(** The number of hexadecimal digits of a number that is not negative. *)
Definition hex_len (n : Z) : nat := S (Z.to_nat (Z.log2 n / 4)).

(** ["%x" % n] *)
Definition format_x (n : Z) : string :=
  if n <? 0 then "-" ++ hex_of (hex_len (- n)) (- n)
  else hex_of (hex_len n) n.

Fixpoint spaces (n : nat) : string :=
  match n with
  | O => EmptyString
  | S n' => String " " (spaces n')
  end.

(** [s.rjust(width)], the padding of a [%] conversion with a width. *)
Definition rjust (width : nat) (s : string) : string :=
  spaces (width - String.length s) ++ s.

(** [("%8x" % timestamp) + ("0" * 16)], the argument of [ObjectId]. *)
Definition dummy_objid_hex (timestamp : Z) : string :=
  rjust 8 (format_x timestamp) ++ "0000000000000000".

(** [get_dummy_objid]; [ObjectId] is the constructor of [bson], which
    raises [InvalidId] on a string it does not accept. *)
Definition get_dummy_objid {A : Type} (ObjectId : string -> A) (timestamp : Z) : A :=
  ObjectId (dummy_objid_hex timestamp).

(** ** Files: the root secret ([semoxy/util.py]) *)

(** A process sees the files by path, the lines it has printed, and the
    world of the handlers (for the random source). *)
Record Host : Type := mkHost {
  files : string -> option string;
  stdout : list string;
  world : World
}.

(** What a function that opens files raises. *)
Inductive io_exn : Type :=
| FileNotFoundError (path : string)
| PyError (e : exn).

Inductive io_result (A : Type) : Type :=
| Done (a : A)
| Failed (e : io_exn).
Arguments Done {A} a.
Arguments Failed {A} e.

(** [open(path, "w")] then [f.write(content)]: the file holds [content]
    and nothing else. *)
Definition write_file (fs : string -> option string) (path content : string)
    : string -> option string :=
  fun p => if String.eqb p path then Some content else fs p.

(** [open(path, "r")] then [f.read()]. *)
Definition read_file (fs : string -> option string) (path : string) : io_result string :=
  match fs path with
  | Some content => Done content
  | None => Failed (FileNotFoundError path)
  end.

Definition renew_root_creation_token (h : Host) : Host :=
  let out := (stdout h ++ ["regenerating root user creation secret"])%list in
  let (secret, w') := token_urlsafe 48 (world h) in
  mkHost (write_file (files h) "root.txt" secret) out w'.

Definition get_root_creation_token (h : Host) : io_result string :=
  read_file (files h) "root.txt".

(** ** Configuration ([semoxy/io/config.py]) *)

(** [c.isspace()] for a code point below 256. *)
Definition is_space (c : ascii) : bool :=
  let n := nat_of_ascii c in
  ((Nat.leb 9 n && Nat.leb n 13) || (Nat.leb 28 n && Nat.leb n 32)
   || Nat.eqb n 133 || Nat.eqb n 160)%bool.

Fixpoint lstrip (s : string) : string :=
  match s with
  | EmptyString => EmptyString
  | String c rest => if is_space c then lstrip rest else s
  end.

Fixpoint rstrip (s : string) : string :=
  match s with
  | EmptyString => EmptyString
  | String c rest =>
      match rstrip rest with
      | EmptyString => if is_space c then EmptyString else String c EmptyString
      | rest' => String c rest'
      end
  end.

(** [s.strip()] *)
Definition strip (s : string) : string := rstrip (lstrip s).

Module Config.

(** Modelled from the spec: the application object [Semoxy] of
    [semoxy/sanicserver.py], of which the configuration reads
    [public_ip] only. *)
Record Semoxy : Type := mkSemoxy {
  public_ip : value
}.

(** The class [Config]: [SEMOXY_INSTANCE] and the other class attributes
    by name. *)
Record t : Type := mk {
  SEMOXY_INSTANCE : option Semoxy;
  attrs : dict
}.

Definition ATTR_KEYS : list (string * (string * value)) :=
  [ ("DB_PATH", ("dbPath", VStr "data.db"));
    ("SESSION_EXPIRATION", ("sessionExpiration", VInt 7200));
    ("VERSIONS", ("versions", VDict []));
    ("MAX_RAM", ("maxRam", VInt 2));
    ("MONGO", ("mongoDB", VDict []));
    ("SERVER_DIR", ("serverDir", VStr "./servers"));
    ("ADDONS", ("addons", VDict []));
    ("JAVA", ("javaSettings", VDict []));
    ("PEPPER", ("pepper", VStr "20 rndm pepper bytes"));
    ("STATIC_IP", ("staticIP", VStr "")) ].

(** The class as its body defines it. *)
Definition initial : t :=
  mk None
     [ ("DB_PATH", VStr "data.db");
       ("VERSIONS", VDict []);
       ("SESSION_EXPIRATION", VInt 7200);
       ("MAX_RAM", VInt 2);
       ("MONGO", VDict []);
       ("SERVER_DIR", VStr "./servers");
       ("ADDONS", VDict []);
       ("JAVA", VDict []);
       ("PEPPER", VStr "");
       ("STATIC_IP", VStr "") ].

(** [setattr(Config, attr, v)] *)
Definition setattr (c : t) (attr : string) (v : value) : t :=
  mk (SEMOXY_INSTANCE c) (dict_set (attrs c) attr v).

(** [Config.<attr>] *)
Definition getattr (c : t) (attr : string) : result value :=
  match dict_get (attrs c) attr with
  | Some v => Ok v
  | None => Raise (AttributeError ("type object 'Config' has no attribute '"
                                     ++ attr ++ "'"))
  end.

(** The [for attr, key in Config.ATTR_KEYS.items()] loop of [load]:
    [KeyError] is caught, any other exception leaves the loop with the
    attributes set so far. *)
Fixpoint load_attrs (keys : list (string * (string * value))) (data : value)
    (c : t) : result unit * t :=
  match keys with
  | [] => (Ok tt, c)
  | (attr, (key, default)) :: rest =>
      match getitem data key with
      | Ok v => load_attrs rest data (setattr c attr v)
      | Raise (KeyError _) => load_attrs rest data (setattr c attr default)
      | Raise e => (Raise e, c)
      end
  end.

(** [get_docker_secret(key)] *)
Definition get_docker_secret (fs : string -> option string) (key : string)
    : option string :=
  match read_file fs ("/run/secrets/" ++ key) with
  | Done content => Some (strip content)
  | Failed _ => None
  end.

Section Load.

(** [json.loads] of the standard library; a text that is no JSON raises
    [JSONDecodeError], a [ValueError]. *)
Variable json_loads : string -> result value.

(** The text [load] parses: the secret when there is one and it is not
    empty, the file [config.json] otherwise. *)
Definition config_text (fs : string -> option string) : io_result string :=
  match get_docker_secret fs "config" with
  | Some config_secret =>
      if truthy (VStr config_secret) then Done config_secret
      else read_file fs "config.json"
  | None => read_file fs "config.json"
  end.

Definition load (fs : string -> option string) (mcweb : Semoxy) (c : t)
    : io_result unit * t :=
  let c := mk (Some mcweb) (attrs c) in
  match config_text fs with
  | Failed e => (Failed e, c)
  | Done text =>
      match json_loads text with
      | Raise e => (Failed (PyError e), c)
      | Ok data =>
          match load_attrs ATTR_KEYS data c with
          | (Ok _, c') => (Done tt, c')
          | (Raise e, c') => (Failed (PyError e), c')
          end
      end
  end.

End Load.

(** [v.items()] *)
Definition items (v : value) : result (list (string * value)) :=
  match v with
  | VDict d => Ok d
  | _ => Raise (AttributeError ("'" ++ type_name v
                                  ++ "' object has no attribute 'items'"))
  end.

(** The loop of [public_json] that fills [java_versions]. *)
Fixpoint java_versions_loop (installations : list (string * value))
    (java_versions : dict) : result dict :=
  match installations with
  | [] => Ok java_versions
  | (k, v) :: rest =>
      match getitem v "displayName" with
      | Ok name => java_versions_loop rest (dict_set java_versions k name)
      | Raise e => Raise e
      end
  end.

Definition public_json (c : t) : result value :=
  match getattr c "JAVA" with
  | Raise e => Raise e
  | Ok java =>
  match getitem java "installations" with
  | Raise e => Raise e
  | Ok installations =>
  match items installations with
  | Raise e => Raise e
  | Ok pairs =>
  match java_versions_loop pairs [] with
  | Raise e => Raise e
  | Ok java_versions =>
  match getattr c "MAX_RAM" with
  | Raise e => Raise e
  | Ok max_ram =>
  match SEMOXY_INSTANCE c with
  | None => Raise (AttributeError "'NoneType' object has no attribute 'public_ip'")
  | Some instance =>
      Ok (VDict (dict_display []
            [ ("javaVersions", VDict java_versions);
              ("maxRam", max_ram);
              ("publicIP", public_ip instance) ]))
  end end end end end end.

End Config.

(** ** Vocabulary of the statements *)

(** The responses the guards build, by name. *)
Definition missing_value_response (prop : string) : HTTPResponse :=
  json_error APIError.MISSING_VALUE ("you need to specify " ++ prop)
             [("field", VStr prop)].

Definition unauthenticated_response : HTTPResponse :=
  json_error APIError.UNAUTHENTICATED
             "you need to be logged in to access this endpoint" [].

Definition no_permission_response : HTTPResponse :=
  json_error APIError.NO_PERMISSION
             "you can't use this endpoint while logged in" [].

Definition invalid_server_status_response (online : bool) : HTTPResponse :=
  json_error APIError.INVALID_SERVER_STATUS
             ("this endpoint requires the server to be "
                ++ (if online then "online" else "offline")) [].

Definition invalid_payload_schema_response (errors : value) : HTTPResponse :=
  json_error APIError.INVALID_PAYLOAD_SCHEMA "invalid payload type"
             [("errors", errors)].

(** The first declared key the payload lacks, if there is one. *)
Definition first_absent (json_keys : list string) (d : dict) : option string :=
  find (fun k => negb (dict_contains d k)) json_keys.

(** The same request with the running flag of its resolved server set. *)
Definition set_running (req : Request) (flag : bool) : Request :=
  mkRequest (json req)
            (mkCtx (user (ctx req)) (session (ctx req))
                   (option_map (fun s => mkServer (server_id s) flag)
                               (server (ctx req))))
            (headers req) (ip req).

(** A ticket with this token waits in the store. *)
Definition unconsumed (w : World) (t : string) : Prop :=
  exists doc, In doc (db w "wsticket") /\ dict_get doc "ticket" = Some (VStr t).

(** The condition of the [while] loop of [get_new_ticket]. *)
Definition collides (w : World) (t : string) : bool :=
  match find_one (db w "wsticket") [("ticket", VStr t)] with
  | Some doc => truthy (VDict doc)
  | None => false
  end.

(** The [k]-th token the random source hands out from [w] on. *)
Definition candidate (w : World) (k : nat) : string :=
  entropy w (drawn w + k).

(** The world after [n] draws from the random source, nothing else changed. *)
Definition after_draws (w : World) (n : nat) : World :=
  mkWorld (db w) (entropy w) (drawn w + n) (invocations w).

(** The number of times a call that took the world from [w] to [w']
    replaced its first token. *)
Definition regenerations (w w' : World) : nat :=
  drawn w' - drawn w - 1.

(** A value with every [ObjectId] replaced by its string and every set
    by the list of its elements, at any depth. *)
Fixpoint plain (v : value) : value :=
  match v with
  | VList l => VList (map plain l)
  | VDict d => VDict (map (fun kv => match kv with (k, x) => (k, plain x) end) d)
  | VObjectId hex => VStr hex
  | VSet l => VList (map plain l)
  | _ => v
  end.

(** The value holds nothing but what JSON has. *)
Fixpoint is_plain (v : value) : bool :=
  match v with
  | VList l => forallb is_plain l
  | VDict d => forallb (fun kv => match kv with (_, x) => is_plain x end) d
  | VObjectId _ => false
  | VSet _ => false
  | _ => true
  end.

(** The value of a hexadecimal digit. *)
Definition hex_value (c : ascii) : option Z :=
  let n := nat_of_ascii c in
  if (Nat.leb 48 n && Nat.leb n 57)%bool then Some (Z.of_nat (n - 48))
  else if (Nat.leb 97 n && Nat.leb n 102)%bool then Some (Z.of_nat (n - 87))
  else if (Nat.leb 65 n && Nat.leb n 70)%bool then Some (Z.of_nat (n - 55))
  else None.

(** Reading hexadecimal digits from the left, [acc] read so far. *)
Fixpoint parse_hex_from (acc : Z) (s : string) : option Z :=
  match s with
  | EmptyString => Some acc
  | String c rest =>
      match hex_value c with
      | Some d => parse_hex_from (acc * 16 + d) rest
      | None => None
      end
  end.

(** The number a string of hexadecimal digits writes; [None] when some
    character is no such digit. *)
Definition parse_hex (s : string) : option Z := parse_hex_from 0 s.

(** The state of a freshly started process: the class [Config] as
    defined, before [load]. *)
Definition default_of (attr : string) : option value :=
  dict_get (Config.attrs Config.initial) attr.

(** [d[key]] when the key is there, [default] when it is not. *)
Definition lookup_or (d : dict) (key : string) (default : value) : value :=
  match dict_get d key with
  | Some v => v
  | None => default
  end.

(** The [displayName] of an installation that has one. *)
Definition display_name (installation : value) : value :=
  match getitem installation "displayName" with
  | Ok name => name
  | Raise _ => VNone
  end.

(** Every character of the string is white space. *)
Fixpoint all_space (s : string) : bool :=
  match s with
  | EmptyString => true
  | String c rest => (is_space c && all_space rest)%bool
  end.

(** * Properties *)

(** ** Dictionaries and the monad *)

Lemma dict_get_contains (d : dict) (k : string) (v : value) :
  dict_get d k = Some v -> dict_contains d k = true.
Proof.
  unfold dict_contains, dict_keys.
  induction d as [|[k' v'] rest IH]; simpl; [discriminate|].
  rewrite (String.eqb_sym k k').
  destruct (String.eqb k' k); auto.
Qed.

Lemma dict_contains_get (d : dict) (k : string) :
  dict_contains d k = true -> exists v, dict_get d k = Some v.
Proof.
  unfold dict_contains, dict_keys.
  induction d as [|[k' v'] rest IH]; simpl; [discriminate|].
  rewrite (String.eqb_sym k k').
  destruct (String.eqb k' k); eauto.
Qed.

Lemma bind_lift_ok {A B} (a : A) (k : A -> M B) (w : World) :
  bind (lift (Ok a)) k w = k a w.
Proof. reflexivity. Qed.

Lemma bind_lift_raise {A B} (e : exn) (k : A -> M B) (w : World) :
  bind (lift (Raise e)) k w = (Raise e, w).
Proof. reflexivity. Qed.

Lemma json_keys_of_dict (req : Request) (d : dict) :
  json req = VDict d -> json_keys_of req = Ok (dict_keys d).
Proof. unfold json_keys_of; intros ->; reflexivity. Qed.

Lemma json_keys_of_other (req : Request) :
  (forall d, json req <> VDict d) ->
  json_keys_of req =
  Raise (AttributeError ("'" ++ type_name (json req) ++ "' object has no attribute 'keys'")).
Proof.
  unfold json_keys_of; intros H.
  destruct (json req) eqn:E; try reflexivity.
  exfalso; exact (H _ eq_refl).
Qed.

(** ** Envelopes *)

Lemma json_error_status (error : string * Z) (description : string) (additional : dict) :
  status (json_error error description additional) = snd error.
Proof. reflexivity. Qed.

(** Two envelopes of kinds with different statuses are different responses. *)
Lemma json_error_kinds_differ (e1 e2 : string * Z) (d1 d2 : string) (x1 x2 : dict) :
  snd e1 <> snd e2 -> json_error e1 d1 x1 <> json_error e2 d2 x2.
Proof.
  intros Hs Heq. apply Hs.
  rewrite <- (json_error_status e1 d1 x1), <- (json_error_status e2 d2 x2).
  now rewrite Heq.
Qed.

(** The objects the encoder hands to [serialize_objectids] are encoded
    as the value the hook returns. *)
Lemma json_dumps_default (v v' : value) :
  serialize_objectids v = Ok v' -> json_dumps v = json_dumps v'.
Proof.
  destruct v; simpl; try discriminate; intros [= <-]; reflexivity.
Qed.

(** ** The required-fields guard *)

Lemma requires_post_params_step (prop : string) (rest : list string)
    (f : Handler) (req : Request) (a : Args) (w : World) (d : dict) :
  json req = VDict d ->
  requires_post_params (prop :: rest) f req a w =
  if dict_contains d prop then requires_post_params rest f req a w
  else (Ok (missing_value_response prop), w).
Proof.
  intros Hj. simpl. rewrite (json_keys_of_dict _ _ Hj), bind_lift_ok.
  unfold dict_contains. destruct (str_in prop (dict_keys d)); reflexivity.
Qed.

Lemma requires_post_params_all_present (json_keys : list string)
    (f : Handler) (req : Request) (a : Args) (w : World) (d : dict) :
  json req = VDict d ->
  (forall k, In k json_keys -> dict_contains d k = true) ->
  requires_post_params json_keys f req a w = f req a w.
Proof.
  intros Hj. induction json_keys as [|prop rest IH]; intros Hall.
  - reflexivity.
  - rewrite (requires_post_params_step _ _ _ _ _ _ _ Hj).
    rewrite (Hall prop (or_introl eq_refl)).
    apply IH. intros k Hk. apply Hall. now right.
Qed.

Lemma requires_post_params_first_absent (pre post : list string) (prop : string)
    (f : Handler) (req : Request) (a : Args) (w : World) (d : dict) :
  json req = VDict d ->
  (forall k, In k pre -> dict_contains d k = true) ->
  dict_contains d prop = false ->
  requires_post_params (pre ++ prop :: post)%list f req a w =
  (Ok (missing_value_response prop), w).
Proof.
  intros Hj. induction pre as [|p pre IH]; intros Hpre Habs; simpl app.
  - rewrite (requires_post_params_step _ _ _ _ _ _ _ Hj), Habs. reflexivity.
  - rewrite (requires_post_params_step _ _ _ _ _ _ _ Hj).
    rewrite (Hpre p (or_introl eq_refl)).
    apply IH; auto. intros k Hk. apply Hpre. now right.
Qed.

Lemma first_absent_split (json_keys : list string) (d : dict) (prop : string) :
  first_absent json_keys d = Some prop ->
  exists pre post, json_keys = (pre ++ prop :: post)%list
                   /\ (forall k, In k pre -> dict_contains d k = true)
                   /\ dict_contains d prop = false.
Proof.
  unfold first_absent.
  induction json_keys as [|k rest IH]; simpl; [discriminate|].
  destruct (dict_contains d k) eqn:E; simpl.
  - intros H. destruct (IH H) as (pre & post & -> & Hpre & Habs).
    exists (k :: pre), post. split; [reflexivity|]. split; [|exact Habs].
    intros k' [<-|Hin]; auto.
  - intros [= <-]. exists [], rest. split; [reflexivity|]. split; [|exact E].
    intros k' [].
Qed.

Lemma first_absent_none (json_keys : list string) (d : dict) :
  first_absent json_keys d = None ->
  forall k, In k json_keys -> dict_contains d k = true.
Proof.
  unfold first_absent. intros H k Hk.
  pose proof (find_none _ _ H k Hk) as Hn. simpl in Hn.
  now destruct (dict_contains d k).
Qed.

(** C6: on a dict payload the guard answers [MISSING_VALUE] for the
    first declared key that the payload lacks, naming that key and no
    other; when no declared key is absent it is the handler's own call. *)
Theorem requires_post_params_reports_first_absent
    (json_keys : list string) (f : Handler) (req : Request) (a : Args)
    (w : World) (d : dict) :
  json req = VDict d ->
  (forall pre prop post,
      json_keys = (pre ++ prop :: post)%list ->
      (forall k, In k pre -> dict_contains d k = true) ->
      dict_contains d prop = false ->
      requires_post_params json_keys f req a w
      = (Ok (json_error APIError.MISSING_VALUE ("you need to specify " ++ prop)
                        [("field", VStr prop)]), w)
      /\ status (missing_value_response prop) = 400
      /\ body (missing_value_response prop)
         = json_dumps (VDict [ ("field", VStr prop);
                               ("error", VStr ("err_ " ++ fst APIError.MISSING_VALUE));
                               ("description", VStr ("you need to specify " ++ prop)) ]))
  /\ ((forall k, In k json_keys -> dict_contains d k = true) ->
      requires_post_params json_keys f req a w = f req a w)
  /\ requires_post_params json_keys f req a w
     = match first_absent json_keys d with
       | Some prop => (Ok (missing_value_response prop), w)
       | None => f req a w
       end.
Proof.
  intros Hj. split; [|split].
  - intros pre prop post -> Hpre Habs. split; [|split].
    + now apply requires_post_params_first_absent with (d := d).
    + reflexivity.
    + reflexivity.
  - now apply requires_post_params_all_present.
  - destruct (first_absent json_keys d) as [prop|] eqn:E.
    + destruct (first_absent_split _ _ _ E) as (pre & post & -> & Hpre & Habs).
      now apply requires_post_params_first_absent with (d := d).
    + apply requires_post_params_all_present with (d := d); auto.
      now apply first_absent_none.
Qed.

Lemma requires_post_params_reports_first_absent_witness :
  requires_post_params ["a"; "b"] (fun _ _ => ret wrong_credentials)
    (mkRequest (VDict [("a", VInt 1)]) (mkCtx None None None) [] "127.0.0.1")
    (mkArgs [] []) (mkWorld (fun _ => []) (fun _ => "t") 0 0)
  = (Ok (missing_value_response "b"), mkWorld (fun _ => []) (fun _ => "t") 0 0).
Proof.
  pose proof (requires_post_params_reports_first_absent
                ["a"; "b"] (fun _ _ => ret wrong_credentials)
                (mkRequest (VDict [("a", VInt 1)]) (mkCtx None None None) [] "127.0.0.1")
                (mkArgs [] []) (mkWorld (fun _ => []) (fun _ => "t") 0 0)
                [("a", VInt 1)] eq_refl) as [H _].
  refine (proj1 (H ["a"] "b" [] eq_refl _ eq_refl)).
  intros k [<-|[]]. reflexivity.
Defined.

(** ** The login-state guard *)

(** C7: with [expected] true (also when it is left out) and no user
    resolved the guard answers [UNAUTHENTICATED]; with [expected] false
    and a user resolved it answers [NO_PERMISSION]; in the two other
    cases the call is the handler's. *)
Theorem requires_login_by_login_state
    (f : Handler) (req : Request) (a : Args) (w : World) :
  (forall expected,
      bool_or_true expected = true -> user (ctx req) = None ->
      requires_login expected f req a w
      = (Ok (json_error APIError.UNAUTHENTICATED
                        "you need to be logged in to access this endpoint" []), w))
  /\ (forall u,
      user (ctx req) = Some u ->
      requires_login (Some false) f req a w
      = (Ok (json_error APIError.NO_PERMISSION
                        "you can't use this endpoint while logged in" []), w))
  /\ (forall expected,
      bool_or_true expected = is_set (user (ctx req)) ->
      requires_login expected f req a w = f req a w)
  /\ requires_login None f req a w = requires_login (Some true) f req a w
  /\ snd APIError.UNAUTHENTICATED = 401
  /\ snd APIError.NO_PERMISSION = 403.
Proof.
  repeat split.
  - intros expected He Hu. unfold requires_login. rewrite He, Hu. reflexivity.
  - intros u Hu. unfold requires_login. rewrite Hu. reflexivity.
  - intros expected He. unfold requires_login. rewrite He.
    destruct (is_set (user (ctx req))); reflexivity.
Qed.

Lemma requires_login_by_login_state_witness :
  requires_login None (fun _ _ => ret wrong_credentials)
    (mkRequest VNone (mkCtx None None None) [] "127.0.0.1")
    (mkArgs [] []) (mkWorld (fun _ => []) (fun _ => "t") 0 0)
  = (Ok unauthenticated_response, mkWorld (fun _ => []) (fun _ => "t") 0 0).
Proof.
  exact (proj1 (requires_login_by_login_state
                  (fun _ _ => ret wrong_credentials)
                  (mkRequest VNone (mkCtx None None None) [] "127.0.0.1")
                  (mkArgs [] []) (mkWorld (fun _ => []) (fun _ => "t") 0 0))
               None eq_refl eq_refl).
Defined.

(** ** The resource-state guard *)

Lemma requires_server_online_resolved (online : option bool) (f : Handler)
    (req : Request) (a : Args) (w : World) (srv : Server) :
  server (ctx req) = Some srv ->
  requires_server_online online f req a w
  = if Bool.eqb (bool_or_true online) (running srv) then f req a w
    else (Ok (invalid_server_status_response (bool_or_true online)), w).
Proof.
  intros Hs. unfold requires_server_online. rewrite Hs.
  destruct (Bool.eqb (bool_or_true online) (running srv)); reflexivity.
Qed.

(** C8: with a server resolved in the context, the guard answers
    [INVALID_SERVER_STATUS], status 423, when the running flag differs
    from the expected one, and is the handler's call when the two are
    equal; the request with the flag set to the expected value passes. *)
Theorem requires_server_online_by_running_flag
    (expected : option bool) (f : Handler) (req : Request) (a : Args)
    (w : World) (srv : Server) :
  server (ctx req) = Some srv ->
  (running srv <> bool_or_true expected ->
     requires_server_online expected f req a w
     = (Ok (json_error APIError.INVALID_SERVER_STATUS
                       ("this endpoint requires the server to be "
                          ++ (if bool_or_true expected then "online" else "offline"))
                       []), w))
  /\ (running srv = bool_or_true expected ->
     requires_server_online expected f req a w = f req a w)
  /\ requires_server_online expected f (set_running req (bool_or_true expected)) a w
     = f (set_running req (bool_or_true expected)) a w
  /\ status (invalid_server_status_response (bool_or_true expected)) = 423.
Proof.
  intros Hs. split; [|split; [|split]].
  - intros Hne. rewrite (requires_server_online_resolved _ _ _ _ _ _ Hs).
    destruct (bool_or_true expected), (running srv); simpl;
      try reflexivity; exfalso; now apply Hne.
  - intros He. rewrite (requires_server_online_resolved _ _ _ _ _ _ Hs), He.
    now rewrite Bool.eqb_reflx.
  - rewrite (requires_server_online_resolved _ _ _ _ _
               (mkServer (server_id srv) (bool_or_true expected))).
    + simpl. now rewrite Bool.eqb_reflx.
    + unfold set_running. simpl. now rewrite Hs.
  - reflexivity.
Qed.

Lemma requires_server_online_by_running_flag_witness :
  requires_server_online (Some true) (fun _ _ => ret wrong_credentials)
    (mkRequest VNone (mkCtx None None (Some (mkServer "s1" false))) [] "127.0.0.1")
    (mkArgs [] []) (mkWorld (fun _ => []) (fun _ => "t") 0 0)
  = (Ok (invalid_server_status_response true),
     mkWorld (fun _ => []) (fun _ => "t") 0 0)
  /\ requires_server_online (Some true) (fun _ _ => ret wrong_credentials)
       (mkRequest VNone (mkCtx None None (Some (mkServer "s1" true))) [] "127.0.0.1")
       (mkArgs [] []) (mkWorld (fun _ => []) (fun _ => "t") 0 0)
     = (Ok wrong_credentials, mkWorld (fun _ => []) (fun _ => "t") 0 0).
Proof.
  pose proof (requires_server_online_by_running_flag
                (Some true) (fun _ _ => ret wrong_credentials)
                (mkRequest VNone (mkCtx None None (Some (mkServer "s1" false)))
                           [] "127.0.0.1")
                (mkArgs [] []) (mkWorld (fun _ => []) (fun _ => "t") 0 0)
                (mkServer "s1" false) eq_refl) as (Hrej & _ & Hflip & _).
  split.
  - apply Hrej. discriminate.
  - exact Hflip.
Defined.

(** ** Guards in a chain *)

Lemma requires_login_rejects_anonymous (f : Handler) (req : Request)
    (a : Args) (w : World) :
  user (ctx req) = None ->
  requires_login None f req a w = (Ok unauthenticated_response, w).
Proof.
  intros Hu. unfold requires_login. rewrite Hu. reflexivity.
Qed.

Lemma requires_login_passes_user (f : Handler) (req : Request)
    (a : Args) (w : World) (u : User) :
  user (ctx req) = Some u ->
  requires_login None f req a w = f req a w.
Proof.
  intros Hu. unfold requires_login. rewrite Hu. reflexivity.
Qed.

(** C1: under [requires_login()] above [requires_post_params("a", "b")],
    a request without a user whose payload has neither field gets the
    [UNAUTHENTICATED] response, which is no [MISSING_VALUE] response
    (the inner guard alone would have named ["a"]); and whenever one of
    the two guards rejects, the world is as before the call, so the
    observed handler has not been called. *)
Theorem requires_login_precedes_post_params
    (f : Handler) (req : Request) (a : Args) (w : World) (d : dict) :
  json req = VDict d ->
  let route := requires_login None
                 (requires_post_params ["a"; "b"] (observed f)) in
  (user (ctx req) = None ->
   dict_contains d "a" = false -> dict_contains d "b" = false ->
     route req a w
     = (Ok (json_error APIError.UNAUTHENTICATED
                       "you need to be logged in to access this endpoint" []), w)
     /\ status unauthenticated_response = 401
     /\ (forall description additional,
            unauthenticated_response
            <> json_error APIError.MISSING_VALUE description additional)
     /\ requires_post_params ["a"; "b"] (observed f) req a w
        = (Ok (missing_value_response "a"), w))
  /\ (user (ctx req) = None
      \/ dict_contains d "a" = false \/ dict_contains d "b" = false ->
     exists resp,
       route req a w = (Ok resp, w)
       /\ invocations (snd (route req a w)) = invocations w
       /\ (resp = unauthenticated_response
           \/ exists prop, In prop ["a"; "b"] /\ resp = missing_value_response prop))
  /\ (forall u, user (ctx req) = Some u ->
      dict_contains d "a" = true -> dict_contains d "b" = true ->
     route req a w = f req a (tick w)).
Proof.
  intros Hj route. split; [|split].
  - intros Hu Ha Hb. split; [|split; [|split]].
    + now apply requires_login_rejects_anonymous.
    + reflexivity.
    + intros description additional. now apply json_error_kinds_differ.
    + now rewrite (requires_post_params_first_absent [] ["b"] "a" _ _ _ _ d).
  - intros Hrej. unfold route.
    destruct (user (ctx req)) as [u|] eqn:Hu.
    + rewrite (requires_login_passes_user _ _ _ _ u Hu).
      rewrite (requires_post_params_step _ _ _ _ _ _ _ Hj).
      destruct (dict_contains d "a") eqn:Ha.
      * rewrite (requires_post_params_step _ _ _ _ _ _ _ Hj).
        destruct (dict_contains d "b") eqn:Hb.
        -- exfalso. destruct Hrej as [H|[H|H]]; discriminate.
        -- exists (missing_value_response "b"). repeat split.
           right. exists "b". split; [now right; left|reflexivity].
      * exists (missing_value_response "a"). repeat split.
        right. exists "a". split; [now left|reflexivity].
    + rewrite (requires_login_rejects_anonymous _ _ _ _ Hu).
      exists unauthenticated_response. repeat split. now left.
  - intros u Hu Ha Hb. unfold route.
    rewrite (requires_login_passes_user _ _ _ _ u Hu).
    rewrite (requires_post_params_all_present _ _ _ _ _ d Hj).
    + reflexivity.
    + intros k [<-|[<-|[]]]; assumption.
Qed.

Lemma requires_login_precedes_post_params_witness :
  requires_login None
    (requires_post_params ["a"; "b"] (observed (fun _ _ => ret wrong_credentials)))
    (mkRequest (VDict []) (mkCtx None None None) [] "127.0.0.1")
    (mkArgs [] []) (mkWorld (fun _ => []) (fun _ => "t") 0 0)
  = (Ok unauthenticated_response, mkWorld (fun _ => []) (fun _ => "t") 0 0).
Proof.
  exact (proj1 (proj1 (requires_login_precedes_post_params
                         (fun _ _ => ret wrong_credentials)
                         (mkRequest (VDict []) (mkCtx None None None) [] "127.0.0.1")
                         (mkArgs [] []) (mkWorld (fun _ => []) (fun _ => "t") 0 0)
                         [] eq_refl)
                      eq_refl eq_refl eq_refl)).
Defined.

(** The order of the decorators decides: with the two guards stacked
    the other way round, the same request is answered for the field. *)
Lemma post_params_above_login_reports_field (f : Handler) (req : Request)
    (a : Args) (w : World) (d : dict) :
  json req = VDict d ->
  user (ctx req) = None ->
  dict_contains d "a" = false ->
  requires_post_params ["a"; "b"] (requires_login None f) req a w
  = (Ok (missing_value_response "a"), w).
Proof.
  intros Hj _ Ha.
  now rewrite (requires_post_params_first_absent [] ["b"] "a" _ _ _ _ d).
Qed.

(** ** Payloads that are no JSON object *)

Lemma requires_post_params_no_object (prop : string) (rest : list string)
    (f : Handler) (req : Request) (a : Args) (w : World) :
  (forall d, json req <> VDict d) ->
  requires_post_params (prop :: rest) f req a w
  = (Raise (AttributeError ("'" ++ type_name (json req)
                              ++ "' object has no attribute 'keys'")), w).
Proof.
  intros Hn. simpl. rewrite (json_keys_of_other _ Hn). reflexivity.
Qed.

Lemma bind_model_no_object {D : Type} (model : dict -> validation D)
    (g : Request -> D -> Args -> M HTTPResponse)
    (req : Request) (a : Args) (w : World) :
  (forall d, json req <> VDict d) ->
  bind_model model g req a w
  = (Raise (TypeError ("argument after ** must be a mapping, not "
                         ++ type_name (json req))), w).
Proof.
  intros Hn. unfold bind_model.
  destruct (json req) eqn:E; try reflexivity.
  exfalso; exact (Hn _ eq_refl).
Qed.

(** C10: when the parsed body is a dict, [requires_post_params] gives a
    [MISSING_VALUE] response or the handler's call, and [bind_model]
    gives [INVALID_PAYLOAD_SCHEMA] or the handler's call on the validated
    object; when it is not, [requires_post_params] with a key to test
    raises [AttributeError] and [bind_model] raises [TypeError], so
    neither answers with a response of the taxonomy (with no key to
    test, [requires_post_params] is the handler's call). *)
Theorem payload_guards_total_on_objects_only
    {D : Type} (json_keys : list string) (model : dict -> validation D)
    (f : Handler) (g : Request -> D -> Args -> M HTTPResponse)
    (req : Request) (a : Args) (w : World) :
  (forall d, json req = VDict d ->
     ((exists prop, In prop json_keys
                    /\ requires_post_params json_keys f req a w
                       = (Ok (json_error APIError.MISSING_VALUE
                                         ("you need to specify " ++ prop)
                                         [("field", VStr prop)]), w))
      \/ requires_post_params json_keys f req a w = f req a w)
     /\ ((exists errors, model d = ValidationError errors
                         /\ bind_model model g req a w
                            = (Ok (json_error APIError.INVALID_PAYLOAD_SCHEMA
                                              "invalid payload type"
                                              [("errors", errors)]), w))
         \/ (exists data, model d = Valid data
                          /\ bind_model model g req a w = g req data a w)))
  /\ ((forall d, json req <> VDict d) ->
     (json_keys <> [] ->
        (exists msg, requires_post_params json_keys f req a w
                     = (Raise (AttributeError msg), w))
        /\ forall error description additional w',
             requires_post_params json_keys f req a w
             <> (Ok (json_error error description additional), w'))
     /\ (json_keys = [] -> requires_post_params json_keys f req a w = f req a w)
     /\ (exists msg, bind_model model g req a w = (Raise (TypeError msg), w))
     /\ forall error description additional w',
          bind_model model g req a w
          <> (Ok (json_error error description additional), w')).
Proof.
  split.
  - intros d Hj. split.
    + destruct (first_absent json_keys d) as [prop|] eqn:E.
      * left. destruct (first_absent_split _ _ _ E) as (pre & post & -> & Hpre & Habs).
        exists prop. split.
        -- apply in_or_app. right. now left.
        -- now apply requires_post_params_first_absent with (d := d).
      * right. apply requires_post_params_all_present with (d := d); auto.
        now apply first_absent_none.
    + unfold bind_model. rewrite Hj.
      destruct (model d) as [data|errors].
      * right. exists data. split; reflexivity.
      * left. exists errors. split; reflexivity.
  - intros Hn. split; [|split; [|split]].
    + intros Hne. destruct json_keys as [|prop rest]; [contradiction|].
      rewrite (requires_post_params_no_object _ _ _ _ _ _ Hn).
      split; [eexists; reflexivity|]. intros; discriminate.
    + intros ->. reflexivity.
    + rewrite (bind_model_no_object _ _ _ _ _ Hn). eexists; reflexivity.
    + rewrite (bind_model_no_object _ _ _ _ _ Hn). intros; discriminate.
Qed.

Lemma payload_guards_total_on_objects_only_witness :
  requires_post_params ["a"] (fun _ _ => ret wrong_credentials)
    (mkRequest VNone (mkCtx None None None) [] "127.0.0.1")
    (mkArgs [] []) (mkWorld (fun _ => []) (fun _ => "t") 0 0)
  <> (Ok (missing_value_response "a"), mkWorld (fun _ => []) (fun _ => "t") 0 0).
Proof.
  refine (proj2 (proj1 (proj2 (payload_guards_total_on_objects_only
                   ["a"] (fun _ : dict => Valid tt)
                   (fun _ _ => ret wrong_credentials)
                   (fun _ _ _ => ret wrong_credentials)
                   (mkRequest VNone (mkCtx None None None) [] "127.0.0.1")
                   (mkArgs [] []) (mkWorld (fun _ => []) (fun _ => "t") 0 0)) _) _)
                 APIError.MISSING_VALUE _ _ _).
  - intros d. discriminate.
  - discriminate.
Defined.

(** ** Login *)

Section LoginFailures.

Variable fetch_by_name : value -> M (option User).
Variable check_password : User -> string -> M bool.
Variable create_session : User -> M Session.
Variable py_str : value -> string.

Let handler := login_post_handler fetch_by_name check_password create_session py_str.
Let route := login_post fetch_by_name check_password create_session py_str.

Lemma login_post_reaches_handler (req : Request) (a : Args) (w : World)
    (d : dict) (name password : value) :
  user (ctx req) = None ->
  json req = VDict d ->
  dict_get d "username" = Some name ->
  dict_get d "password" = Some password ->
  route req a w = handler req a w.
Proof.
  intros Hu Hj Hn Hp. unfold route, login_post, requires_login.
  rewrite Hu. cbn [bool_or_true is_set negb andb].
  apply requires_post_params_all_present with (d := d); auto.
  intros k [<-|[<-|[]]]; eapply dict_get_contains; eauto.
Qed.

Lemma login_post_handler_unknown_name (req : Request) (a : Args)
    (w w' : World) (d : dict) (name : value) :
  json req = VDict d ->
  dict_get d "username" = Some name ->
  fetch_by_name name w = (Ok None, w') ->
  handler req a w = (Ok wrong_credentials, w').
Proof.
  intros Hj Hn Hf. unfold handler, login_post_handler.
  rewrite Hj. unfold getitem, dict_getitem. rewrite Hn, bind_lift_ok.
  unfold bind at 1. rewrite Hf. reflexivity.
Qed.

Lemma login_post_handler_wrong_password (req : Request) (a : Args)
    (w w' w'' : World) (d : dict) (name password : value) (u : User) :
  json req = VDict d ->
  dict_get d "username" = Some name ->
  dict_get d "password" = Some password ->
  fetch_by_name name w = (Ok (Some u), w') ->
  check_password u (py_str password) w' = (Ok false, w'') ->
  handler req a w = (Ok wrong_credentials, w'').
Proof.
  intros Hj Hn Hp Hf Hc. unfold handler, login_post_handler.
  rewrite Hj. unfold getitem, dict_getitem. rewrite Hn, bind_lift_ok.
  unfold bind at 1. rewrite Hf, Hp, bind_lift_ok.
  unfold bind at 1. rewrite Hc. reflexivity.
Qed.

Lemma login_post_rejects_logged_in (req : Request) (a : Args) (w : World) (u : User) :
  user (ctx req) = Some u ->
  route req a w = (Ok no_permission_response, w).
Proof.
  intros Hu. unfold route, login_post, requires_login. rewrite Hu. reflexivity.
Qed.

(** C2: a login request whose username no user has and a login request
    whose username is a user's but whose password fails the check get
    the same response: the same bytes in the body, status 401.  (Sent
    from a context that is logged in already, both are turned away by
    the guard, again alike.) *)
Theorem login_post_failures_indistinguishable
    (req1 req2 : Request) (a1 a2 : Args) (w1 w1' w2 w2' w2'' : World)
    (d1 d2 : dict) (name1 password1 name2 password2 : value) (u : User) :
  is_set (user (ctx req1)) = is_set (user (ctx req2)) ->
  json req1 = VDict d1 ->
  dict_get d1 "username" = Some name1 -> dict_get d1 "password" = Some password1 ->
  json req2 = VDict d2 ->
  dict_get d2 "username" = Some name2 -> dict_get d2 "password" = Some password2 ->
  fetch_by_name name1 w1 = (Ok None, w1') ->
  fetch_by_name name2 w2 = (Ok (Some u), w2') ->
  check_password u (py_str password2) w2' = (Ok false, w2'') ->
  exists r1 r2,
    fst (login_post fetch_by_name check_password create_session py_str req1 a1 w1) = Ok r1
    /\ fst (login_post fetch_by_name check_password create_session py_str req2 a2 w2) = Ok r2
    /\ r1 = r2
    /\ body r1 = body r2
    /\ (user (ctx req1) = None ->
        status r1 = 401 /\ status r2 = 401
        /\ body r1 = json_dumps
                       (VDict [ ("error", VStr "Wrong Credentials");
                                ("status", VInt 401);
                                ("description",
                                 VStr "either username or password are wrong") ])).
Proof.
  intros Hsame Hj1 Hn1 Hp1 Hj2 Hn2 Hp2 Hf1 Hf2 Hc.
  fold route.
  destruct (user (ctx req1)) as [u1|] eqn:Hu1, (user (ctx req2)) as [u2|] eqn:Hu2;
    try discriminate Hsame.
  - exists no_permission_response, no_permission_response.
    rewrite (login_post_rejects_logged_in req1 a1 w1 u1 Hu1).
    rewrite (login_post_rejects_logged_in req2 a2 w2 u2 Hu2).
    do 4 (split; [reflexivity|]). intros H. discriminate H.
  - exists wrong_credentials, wrong_credentials.
    rewrite (login_post_reaches_handler req1 a1 w1 d1 name1 password1 Hu1 Hj1 Hn1 Hp1).
    rewrite (login_post_reaches_handler req2 a2 w2 d2 name2 password2 Hu2 Hj2 Hn2 Hp2).
    rewrite (login_post_handler_unknown_name req1 a1 w1 w1' d1 name1 Hj1 Hn1 Hf1).
    rewrite (login_post_handler_wrong_password req2 a2 w2 w2' w2'' d2 name2 password2 u
               Hj2 Hn2 Hp2 Hf2 Hc).
    repeat split.
Qed.

End LoginFailures.

(** A store of one user, ["ada"], whose password is ["lovelace"]. *)
Lemma login_post_failures_indistinguishable_witness :
  let ada := mkUser "ada" "h" (VDict []) false in
  let fetch := fun n => ret (match n with
                             | VStr "ada" => Some ada
                             | _ => None
                             end) in
  let check := fun (_ : User) p => ret (String.eqb p "lovelace") in
  let create := fun (_ : User) => ret (mkSession "sid" VNone VNone VNone) in
  let str := fun v => match v with VStr s => s | _ => "" end in
  let w := mkWorld (fun _ => []) (fun _ => "t") 0 0 in
  let anonymous := mkCtx None None None in
  exists r,
    fst (login_post fetch check create str
           (mkRequest (VDict [("username", VStr "bob"); ("password", VStr "lovelace")])
                      anonymous [] "127.0.0.1") (mkArgs [] []) w) = Ok r
    /\ fst (login_post fetch check create str
              (mkRequest (VDict [("username", VStr "ada"); ("password", VStr "byron")])
                         anonymous [] "127.0.0.1") (mkArgs [] []) w) = Ok r
    /\ status r = 401.
Proof.
  intros ada fetch check create str w anonymous.
  destruct (login_post_failures_indistinguishable fetch check create str
              (mkRequest (VDict [("username", VStr "bob"); ("password", VStr "lovelace")])
                         anonymous [] "127.0.0.1")
              (mkRequest (VDict [("username", VStr "ada"); ("password", VStr "byron")])
                         anonymous [] "127.0.0.1")
              (mkArgs [] []) (mkArgs [] []) w w w w w
              [("username", VStr "bob"); ("password", VStr "lovelace")]
              [("username", VStr "ada"); ("password", VStr "byron")]
              (VStr "bob") (VStr "lovelace") (VStr "ada") (VStr "byron") ada
              eq_refl eq_refl eq_refl eq_refl eq_refl eq_refl eq_refl
              eq_refl eq_refl eq_refl)
    as (r1 & r2 & H1 & H2 & Heq & _ & Hs).
  exists r1. subst r2. split; [exact H1|]. split; [exact H2|].
  exact (proj1 (Hs eq_refl)).
Defined.

(** ** Session introspection *)

(** C9: [check_session] always answers 200; the body is
    [{loggedIn: false}] without a session and [{loggedIn: true,
    expiration, userId}] with one, and nothing of the request but these
    three values decides the response: not the session id, not the user
    record with its password hash. *)
Theorem check_session_reveals_login_state_only
    (req : Request) (a : Args) (w : World) :
  exists r,
    check_session req a w = (Ok r, w)
    /\ status r = 200
    /\ (session (ctx req) = None ->
        body r = json_dumps (VDict [("loggedIn", VBool false)]))
    /\ (forall s, session (ctx req) = Some s ->
        body r = json_dumps (VDict [ ("loggedIn", VBool true);
                                     ("expiration", expiration s);
                                     ("userId", userId s) ]))
    /\ (forall req' a' w',
          option_map (fun s => (expiration s, userId s)) (session (ctx req'))
          = option_map (fun s => (expiration s, userId s)) (session (ctx req)) ->
          fst (check_session req' a' w') = Ok r).
Proof.
  unfold check_session, ret.
  eexists. split; [reflexivity|]. split; [reflexivity|]. split; [|split].
  - intros ->. reflexivity.
  - intros s ->. reflexivity.
  - intros req' a' w' H. cbn [fst]. f_equal. f_equal.
    destruct (session (ctx req')) as [s'|], (session (ctx req)) as [s|];
      simpl in H; try discriminate; [|reflexivity].
    injection H as He Hu. simpl. now rewrite He, Hu.
Qed.

Lemma check_session_reveals_login_state_only_witness :
  fst (check_session
         (mkRequest VNone
            (mkCtx (Some (mkUser "ada" "hash" (VDict []) false))
                   (Some (mkSession "secret-sid" (VObjectId "0a") (VInt 10) (VInt 7210)))
                   None)
            [] "127.0.0.1")
         (mkArgs [] []) (mkWorld (fun _ => []) (fun _ => "t") 0 0))
  = Ok (json_res (VDict [ ("loggedIn", VBool true);
                          ("expiration", VInt 7210);
                          ("userId", VObjectId "0a") ]) None).
Proof.
  destruct (check_session_reveals_login_state_only
              (mkRequest VNone
                 (mkCtx None (Some (mkSession "other" (VObjectId "0a") VNone (VInt 7210)))
                        None)
                 [] "10.0.0.1")
              (mkArgs [] []) (mkWorld (fun _ => []) (fun _ => "u") 3 0))
    as (r & Hr & _ & _ & _ & Hsame).
  injection Hr as <-.
  apply Hsame. reflexivity.
Defined.

(** ** The error envelope *)

Lemma dict_get_set_same (d : dict) (k : string) (v : value) :
  dict_get (dict_set d k v) k = Some v.
Proof.
  induction d as [|[k' v'] rest IH]; simpl.
  - now rewrite String.eqb_refl.
  - destruct (String.eqb k' k) eqn:E; simpl; rewrite E; auto.
Qed.

Lemma dict_get_set_other (d : dict) (k k' : string) (v : value) :
  k <> k' -> dict_get (dict_set d k v) k' = dict_get d k'.
Proof.
  intros Hne. induction d as [|[k0 v0] rest IH]; simpl.
  - destruct (String.eqb k k') eqn:E; [|reflexivity].
    apply String.eqb_eq in E. contradiction.
  - destruct (String.eqb k0 k) eqn:E; simpl.
    + apply String.eqb_eq in E. subst k0.
      destruct (String.eqb k k') eqn:E'; [|reflexivity].
      apply String.eqb_eq in E'. contradiction.
    + now rewrite IH.
Qed.


Lemma prefixed_code_differs (code : string) : "err_ " ++ code <> code.
Proof.
  intros H. apply (f_equal String.length) in H. simpl in H. lia.
Qed.




(** ** Tickets *)

Section Tickets.

Variable create_ticket : User -> string -> string -> M WebsocketTicket.

Lemma open_ticket_agent_absent (req : Request) (a : Args) (w : World) (u : User) :
  user (ctx req) = Some u ->
  headers_get (headers req) "User-Agent" = None ->
  open_ticket create_ticket req a w = (Raise (KeyError "User-Agent"), w).
Proof.
  intros Hu Hh. unfold open_ticket, requires_login, open_ticket_handler.
  rewrite Hu. cbn [bool_or_true is_set negb andb].
  unfold headers_getitem. rewrite Hh. reflexivity.
Qed.

Lemma open_ticket_agent_present (req : Request) (a : Args) (w w' : World)
    (u : User) (agent : string) (t : WebsocketTicket) :
  user (ctx req) = Some u ->
  headers_get (headers req) "User-Agent" = Some agent ->
  create_ticket u (ip req) (str_or agent "unknown agent") w = (Ok t, w') ->
  open_ticket create_ticket req a w
  = (Ok (json_res (VDict [ ("success", VStr "ticket created");
                           ("data", VDict [("token", VStr (token t))]) ]) None), w').
Proof.
  intros Hu Hh Hc. unfold open_ticket, requires_login, open_ticket_handler.
  rewrite Hu. cbn [bool_or_true is_set negb andb].
  unfold headers_getitem. rewrite Hh, bind_lift_ok.
  unfold bind. rewrite Hc. reflexivity.
Qed.

(** C4: for a logged-in request without a [User-Agent] header,
    [open_ticket] raises [KeyError] at the header lookup: [create_ticket]
    is not called, with ["unknown agent"] or anything else, and no token
    is returned.  The default is taken for a header that is there and
    empty. *)
Theorem open_ticket_without_agent_raises
    (u : User) (origin : string) (a : Args) (w : World) :
  open_ticket create_ticket
    (mkRequest VNone (mkCtx (Some u) None None) [] origin) a w
  = (Raise (KeyError "User-Agent"), w)
  /\ str_or "" "unknown agent" = "unknown agent".
Proof.
  split; [|reflexivity].
  now apply open_ticket_agent_absent with (u := u).
Qed.

End Tickets.

(** *** The collision loop *)

Lemma value_eqb_str (v : value) (t : string) :
  value_eqb v (VStr t) = true <-> v = VStr t.
Proof.
  destruct v; simpl; split; try discriminate.
  - intros H. apply String.eqb_eq in H. now subst.
  - intros [= ->]. apply String.eqb_refl.
Qed.

Lemma matches_ticket (doc : dict) (t : string) :
  matches [("ticket", VStr t)] doc = true <-> dict_get doc "ticket" = Some (VStr t).
Proof.
  unfold matches. simpl. rewrite Bool.andb_true_r.
  destruct (dict_get doc "ticket") as [v|]; split; try discriminate.
  - intros H. apply value_eqb_str in H. now subst.
  - intros [= ->]. now apply value_eqb_str.
Qed.

Lemma collides_unconsumed (w : World) (t : string) :
  collides w t = true <-> unconsumed w t.
Proof.
  unfold collides, unconsumed, find_one. split.
  - destruct (find _ _) as [doc|] eqn:E; [|discriminate].
    intros _. apply find_some in E. destruct E as [Hin Hm].
    exists doc. split; [exact Hin|]. now apply matches_ticket.
  - intros (doc & Hin & Hg).
    destruct (find _ _) as [doc'|] eqn:E.
    + apply find_some in E. destruct E as [_ Hm].
      apply matches_ticket in Hm.
      destruct doc' as [|kv rest]; [discriminate|reflexivity].
    + pose proof (find_none _ _ E doc Hin) as Hn.
      apply matches_ticket in Hg. congruence.
Qed.

Lemma collides_after_draws (w : World) (n : nat) (t : string) :
  collides (after_draws w n) t = collides w t.
Proof. reflexivity. Qed.

Lemma get_new_ticket_loop_step (fuel : nat) (t : string) (w : World) :
  get_new_ticket_loop (S fuel) t w
  = if collides w t
    then get_new_ticket_loop fuel (entropy w (drawn w))
           (mkWorld (db w) (entropy w) (S (drawn w)) (invocations w))
    else Some (t, w).
Proof. reflexivity. Qed.

Lemma after_draws_succ (w : World) (n : nat) :
  mkWorld (db (after_draws w n)) (entropy (after_draws w n))
          (S (drawn (after_draws w n))) (invocations (after_draws w n))
  = after_draws w (S n).
Proof.
  unfold after_draws. simpl. now rewrite Nat.add_succ_r.
Qed.

(** From the [i]-th candidate on: [k] collisions, then a free token. *)
Lemma get_new_ticket_loop_runs (w : World) (k : nat) :
  forall (i fuel : nat),
    (forall j, (j < k)%nat -> collides w (candidate w (i + j)) = true) ->
    collides w (candidate w (i + k)) = false ->
    (k < fuel)%nat ->
    get_new_ticket_loop fuel (candidate w i) (after_draws w (S i))
    = Some (candidate w (i + k), after_draws w (S (i + k))).
Proof.
  induction k as [|k IH]; intros i fuel Hcol Hfree Hfuel.
  - destruct fuel as [|fuel]; [lia|].
    rewrite get_new_ticket_loop_step, collides_after_draws.
    rewrite Nat.add_0_r in *. now rewrite Hfree.
  - destruct fuel as [|fuel]; [lia|].
    rewrite get_new_ticket_loop_step, collides_after_draws.
    pose proof (Hcol 0%nat ltac:(lia)) as H0. rewrite Nat.add_0_r in H0.
    rewrite H0, after_draws_succ.
    change (entropy (after_draws w (S i)) (drawn (after_draws w (S i))))
      with (candidate w (S i)).
    rewrite (IH (S i) fuel).
    + now rewrite Nat.add_succ_r.
    + intros j Hj. specialize (Hcol (S j) ltac:(lia)).
      now rewrite Nat.add_succ_r in Hcol.
    + now rewrite Nat.add_succ_r in Hfree.
    + lia.
Qed.

(** Whatever the loop returns is a candidate that does not collide, and
    the candidates before it did. *)
Lemma get_new_ticket_loop_returns (w : World) (fuel : nat) :
  forall (i : nat) (t : string) (w' : World),
    get_new_ticket_loop fuel (candidate w i) (after_draws w (S i)) = Some (t, w') ->
    exists k, t = candidate w (i + k)
              /\ w' = after_draws w (S (i + k))
              /\ collides w t = false
              /\ forall j, (j < k)%nat -> collides w (candidate w (i + j)) = true.
Proof.
  induction fuel as [|fuel IH]; intros i t w' H; [discriminate|].
  rewrite get_new_ticket_loop_step, collides_after_draws in H.
  destruct (collides w (candidate w i)) eqn:E.
  - rewrite after_draws_succ in H.
    change (entropy (after_draws w (S i)) (drawn (after_draws w (S i))))
      with (candidate w (S i)) in H.
    destruct (IH _ _ _ H) as (k & -> & -> & Hfree & Hcol).
    exists (S k). rewrite !Nat.add_succ_r. repeat split; auto.
    intros [|j] Hj.
    + now rewrite Nat.add_0_r.
    + rewrite Nat.add_succ_r. apply (Hcol j). lia.
  - injection H as <- <-. exists 0%nat. rewrite Nat.add_0_r.
    repeat split; auto. intros j Hj. lia.
Qed.

Lemma get_new_ticket_unfold (fuel : nat) (w : World) :
  get_new_ticket fuel w
  = get_new_ticket_loop fuel (candidate w 0) (after_draws w 1).
Proof.
  unfold get_new_ticket, token_urlsafe, candidate, after_draws.
  now rewrite Nat.add_0_r, Nat.add_1_r.
Qed.

Lemma first_free_candidate (P : nat -> bool) (n : nat) :
  P n = false ->
  exists k, (k <= n)%nat /\ P k = false /\ forall j, (j < k)%nat -> P j = true.
Proof.
  induction n as [n IH] using (well_founded_induction lt_wf). intros Hn.
  destruct (forallb P (seq 0 n)) eqn:E.
  - exists n. repeat split; auto. intros j Hj.
    rewrite forallb_forall in E. apply E, in_seq. lia.
  - assert (exists m, (m < n)%nat /\ P m = false) as (m & Hm & Pm).
    { clear IH Hn. induction n as [|n IHn]; [discriminate|].
      rewrite seq_S, forallb_app in E. simpl in E.
      destruct (forallb P (seq 0 n)) eqn:E'.
      - exists n. split; [lia|]. destruct (P n); [discriminate|reflexivity].
      - destruct (IHn eq_refl) as (m & Hm & Pm). exists m. split; [lia|exact Pm]. }
    destruct (IH m Hm Pm) as (k & Hk & Pk & Hlt).
    exists k. repeat split; auto. lia.
Qed.

(** When every candidate collides the loop has no end: no amount of
    fuel gives a result. *)
Lemma get_new_ticket_never_returns (w : World) :
  (forall n, unconsumed w (candidate w n)) ->
  forall fuel, get_new_ticket fuel w = None.
Proof.
  intros Hall fuel. destruct (get_new_ticket fuel w) as [[t w']|] eqn:E; [|reflexivity].
  rewrite get_new_ticket_unfold in E.
  destruct (get_new_ticket_loop_returns _ _ _ _ _ E) as (k & -> & _ & Hfree & _).
  specialize (Hall (0 + k)%nat). apply collides_unconsumed in Hall. congruence.
Qed.

(** C5: the token [get_new_ticket] returns is the first candidate of the
    random source that no unconsumed ticket of the store carries; the
    call returns as soon as the source has such a candidate.  When the
    first candidate is in the store and the second is not, the second
    is returned after one regeneration. *)
Theorem get_new_ticket_returns_unused_token (w : World) :
  (forall n, ~ unconsumed w (candidate w n) ->
     exists k, (k <= n)%nat
       /\ (forall fuel, (k < fuel)%nat ->
             get_new_ticket fuel w = Some (candidate w k, after_draws w (S k)))
       /\ ~ unconsumed (after_draws w (S k)) (candidate w k)
       /\ (forall j, (j < k)%nat -> unconsumed w (candidate w j))
       /\ regenerations w (after_draws w (S k)) = k)
  /\ (forall fuel t w',
        get_new_ticket fuel w = Some (t, w') ->
        ~ unconsumed w' t
        /\ db w' = db w
        /\ t = candidate w (regenerations w w')
        /\ forall j, (j < regenerations w w')%nat -> unconsumed w (candidate w j))
  /\ (unconsumed w (candidate w 0) -> ~ unconsumed w (candidate w 1) ->
      forall fuel, (2 <= fuel)%nat ->
        get_new_ticket fuel w = Some (candidate w 1, after_draws w 2)
        /\ candidate w 1 <> candidate w 0
        /\ regenerations w (after_draws w 2) = 1%nat).
Proof.
  assert (Hregen : forall k, regenerations w (after_draws w (S k)) = k).
  { intros k. unfold regenerations, after_draws. simpl. lia. }
  split; [|split].
  - intros n Hn.
    destruct (first_free_candidate (fun k => collides w (candidate w k)) n)
      as (k & Hk & Hfree & Hcol).
    { destruct (collides w (candidate w n)) eqn:E; [|reflexivity].
      apply collides_unconsumed in E. contradiction. }
    exists k. split; [exact Hk|]. split; [|split; [|split]].
    + intros fuel Hfuel. rewrite get_new_ticket_unfold.
      now rewrite (get_new_ticket_loop_runs w k 0 fuel).
    + intros H. apply collides_unconsumed in H.
      rewrite collides_after_draws in H. congruence.
    + intros j Hj. apply collides_unconsumed. now apply Hcol.
    + apply Hregen.
  - intros fuel t w' H. rewrite get_new_ticket_unfold in H.
    destruct (get_new_ticket_loop_returns _ _ _ _ _ H) as (k & -> & -> & Hfree & Hcol).
    rewrite Hregen. simpl. split; [|split; [|split]].
    + intros Hu. apply collides_unconsumed in Hu.
      rewrite collides_after_draws in Hu. simpl in Hfree. congruence.
    + reflexivity.
    + reflexivity.
    + intros j Hj. apply collides_unconsumed. now apply (Hcol j).
  - intros H0 H1 fuel Hfuel. split; [|split].
    + rewrite get_new_ticket_unfold.
      apply (get_new_ticket_loop_runs w 1 0 fuel).
      * intros j Hj. assert (j = 0)%nat as -> by lia. now apply collides_unconsumed.
      * destruct (collides w (candidate w (0 + 1))) eqn:E; [|reflexivity].
        apply collides_unconsumed in E. contradiction.
      * lia.
    + intros Heq. apply H1. now rewrite Heq.
    + apply Hregen.
Qed.

(** A store that holds the ticket ["t0"] and a source that hands out
    ["t0"] first and ["t1"] from then on. *)
Lemma get_new_ticket_returns_unused_token_witness :
  let store := fun c => if String.eqb c "wsticket"
                        then [[("ticket", VStr "t0"); ("userId", VObjectId "0a")]]
                        else [] in
  let source := fun n => match n with O => "t0" | _ => "t1" end in
  get_new_ticket 2 (mkWorld store source 0 0)
  = Some ("t1", mkWorld store source 2 0).
Proof.
  intros store source.
  refine (proj1 (proj2 (proj2 (get_new_ticket_returns_unused_token
                                 (mkWorld store source 0 0))) _ _ 2%nat (le_n 2))).
  - exists [("ticket", VStr "t0"); ("userId", VObjectId "0a")].
    split; [now left|reflexivity].
  - intros (doc & [<-|[]] & Hg). discriminate.
Defined.

(** * Further properties of the guards and the account endpoints *)

(** X1: two stacked [requires_post_params] decorators are one decorator
    with the outer keys followed by the inner ones, on every request. *)
Theorem requires_post_params_stacked
    (outer inner : list string) (f : Handler) (req : Request) (a : Args) (w : World) :
  requires_post_params outer (requires_post_params inner f) req a w
  = requires_post_params (outer ++ inner)%list f req a w.
Proof.
  induction outer as [|prop rest IH]; [reflexivity|].
  simpl. unfold bind, lift.
  destruct (json_keys_of req) as [keys|e]; [|reflexivity].
  destruct (negb (str_in prop keys)); [reflexivity|exact IH].
Qed.

Section ServerGuards.

Variable get_server : value -> M (option Server).

(** X2: without the route parameter [i], [server_endpoint] answers
    [MISSING_VALUE] (400) and neither asks the supervisor nor calls the
    handler: the world is untouched. *)
Theorem server_endpoint_needs_id (f : Handler) (req : Request) (a : Args) (w : World) :
  dict_contains (kwargs a) "i" = false ->
  server_endpoint get_server f req a w
  = (Ok (json_error APIError.MISSING_VALUE
                    "please specify the server id in the uri" []), w)
  /\ status (json_error APIError.MISSING_VALUE
                        "please specify the server id in the uri" []) = 400.
Proof.
  intros H. unfold server_endpoint. rewrite H. split; reflexivity.
Qed.

(** X3: when the supervisor knows no server for the id,
    [server_endpoint] answers [INVALID_SERVER] (404) in the world the
    lookup left, and the handler is not called. *)
Theorem server_endpoint_unknown_server
    (f : Handler) (req : Request) (a : Args) (w w' : World) (i : value) :
  dict_get (kwargs a) "i" = Some i ->
  get_server i w = (Ok None, w') ->
  server_endpoint get_server f req a w
  = (Ok (json_error APIError.INVALID_SERVER "no server was found for your id" []), w')
  /\ status (json_error APIError.INVALID_SERVER
                        "no server was found for your id" []) = 404.
Proof.
  intros Hi Hg. unfold server_endpoint.
  rewrite (dict_get_contains _ _ _ Hi). cbn [negb].
  unfold dict_getitem. rewrite Hi, bind_lift_ok.
  unfold bind. rewrite Hg. split; reflexivity.
Qed.

(** X4: under [server_endpoint], [requires_server_online] always finds
    the server: for a server the supervisor returns, the stack answers
    [INVALID_SERVER_STATUS] when the running flag differs from the
    expected one and otherwise calls the handler on the request that
    carries the server. *)
Theorem server_endpoint_feeds_online_guard
    (expected : option bool) (f : Handler) (req : Request) (a : Args)
    (w w' : World) (i : value) (srv : Server) :
  dict_get (kwargs a) "i" = Some i ->
  get_server i w = (Ok (Some srv), w') ->
  server_endpoint get_server (requires_server_online expected f) req a w
  = if Bool.eqb (bool_or_true expected) (running srv)
    then f (with_server req srv) a w'
    else (Ok (invalid_server_status_response (bool_or_true expected)), w').
Proof.
  intros Hi Hg. unfold server_endpoint.
  rewrite (dict_get_contains _ _ _ Hi). cbn [negb].
  unfold dict_getitem. rewrite Hi, bind_lift_ok.
  unfold bind. rewrite Hg.
  now apply requires_server_online_resolved.
Qed.

End ServerGuards.

Lemma server_endpoint_needs_id_witness :
  server_endpoint (fun _ => ret None) (fun _ _ => ret wrong_credentials)
    (mkRequest VNone (mkCtx None None None) [] "127.0.0.1")
    (mkArgs [] []) (mkWorld (fun _ => []) (fun _ => "t") 0 0)
  = (Ok (json_error APIError.MISSING_VALUE
                    "please specify the server id in the uri" []),
     mkWorld (fun _ => []) (fun _ => "t") 0 0).
Proof.
  exact (proj1 (server_endpoint_needs_id (fun _ => ret None)
                  (fun _ _ => ret wrong_credentials)
                  (mkRequest VNone (mkCtx None None None) [] "127.0.0.1")
                  (mkArgs [] []) (mkWorld (fun _ => []) (fun _ => "t") 0 0)
                  eq_refl)).
Defined.

Lemma server_endpoint_unknown_server_witness :
  server_endpoint (fun _ => ret None) (fun _ _ => ret wrong_credentials)
    (mkRequest VNone (mkCtx None None None) [] "127.0.0.1")
    (mkArgs [] [("i", VStr "42")]) (mkWorld (fun _ => []) (fun _ => "t") 0 0)
  = (Ok (json_error APIError.INVALID_SERVER "no server was found for your id" []),
     mkWorld (fun _ => []) (fun _ => "t") 0 0).
Proof.
  exact (proj1 (server_endpoint_unknown_server (fun _ => ret None)
                  (fun _ _ => ret wrong_credentials)
                  (mkRequest VNone (mkCtx None None None) [] "127.0.0.1")
                  (mkArgs [] [("i", VStr "42")])
                  (mkWorld (fun _ => []) (fun _ => "t") 0 0)
                  (mkWorld (fun _ => []) (fun _ => "t") 0 0)
                  (VStr "42") eq_refl eq_refl)).
Defined.

Lemma server_endpoint_feeds_online_guard_witness :
  server_endpoint (fun _ => ret (Some (mkServer "42" false)))
    (requires_server_online None (fun _ _ => ret wrong_credentials))
    (mkRequest VNone (mkCtx None None None) [] "127.0.0.1")
    (mkArgs [] [("i", VStr "42")]) (mkWorld (fun _ => []) (fun _ => "t") 0 0)
  = (Ok (invalid_server_status_response true),
     mkWorld (fun _ => []) (fun _ => "t") 0 0).
Proof.
  exact (server_endpoint_feeds_online_guard
           (fun _ => ret (Some (mkServer "42" false))) None
           (fun _ _ => ret wrong_credentials)
           (mkRequest VNone (mkCtx None None None) [] "127.0.0.1")
           (mkArgs [] [("i", VStr "42")])
           (mkWorld (fun _ => []) (fun _ => "t") 0 0)
           (mkWorld (fun _ => []) (fun _ => "t") 0 0)
           (VStr "42") (mkServer "42" false) eq_refl eq_refl).
Defined.

(** X5: used without [server_endpoint] above it, so that no server is
    in the context, [requires_server_online] raises [AttributeError]:
    it answers with no response at all and does not call the handler. *)
Theorem requires_server_online_needs_resolution
    (expected : option bool) (f : Handler) (req : Request) (a : Args) (w : World) :
  server (ctx req) = None ->
  requires_server_online expected f req a w
  = (Raise (AttributeError
              "'types.SimpleNamespace' object has no attribute 'server'"), w).
Proof.
  intros H. unfold requires_server_online. rewrite H. reflexivity.
Qed.

Lemma requires_server_online_needs_resolution_witness :
  requires_server_online None (fun _ _ => ret wrong_credentials)
    (mkRequest VNone (mkCtx None None None) [] "127.0.0.1")
    (mkArgs [] []) (mkWorld (fun _ => []) (fun _ => "t") 0 0)
  = (Raise (AttributeError
              "'types.SimpleNamespace' object has no attribute 'server'"),
     mkWorld (fun _ => []) (fun _ => "t") 0 0).
Proof.
  exact (requires_server_online_needs_resolution None
           (fun _ _ => ret wrong_credentials)
           (mkRequest VNone (mkCtx None None None) [] "127.0.0.1")
           (mkArgs [] []) (mkWorld (fun _ => []) (fun _ => "t") 0 0) eq_refl).
Defined.

(** ** Login, beyond the failures *)

Section LoginOutcomes.

Variable fetch_by_name : value -> M (option User).
Variable check_password : User -> string -> M bool.
Variable create_session : User -> M Session.
Variable py_str : value -> string.

(** X6: a login with a known name and a password that passes the check
    creates one session, after the lookup and the check, and answers 200
    with that session's id under [data.sessionId]. *)
Theorem login_post_success_returns_session_id
    (req : Request) (a : Args) (w w1 w2 w3 : World) (d : dict)
    (name password : value) (u : User) (s : Session) :
  user (ctx req) = None ->
  json req = VDict d ->
  dict_get d "username" = Some name ->
  dict_get d "password" = Some password ->
  fetch_by_name name w = (Ok (Some u), w1) ->
  check_password u (py_str password) w1 = (Ok true, w2) ->
  create_session u w2 = (Ok s, w3) ->
  exists r,
    login_post fetch_by_name check_password create_session py_str req a w = (Ok r, w3)
    /\ status r = 200
    /\ body r = json_dumps
                  (VDict [ ("success", VStr "logged in successfully");
                           ("data", VDict [("sessionId", VStr (sid s))]) ]).
Proof.
  intros Hu Hj Hn Hp Hf Hc Hs. eexists. split; [|split].
  - rewrite (login_post_reaches_handler _ _ _ _ req a w d name password Hu Hj Hn Hp).
    unfold login_post_handler. rewrite Hj. unfold getitem, dict_getitem.
    rewrite Hn, bind_lift_ok. unfold bind at 1. rewrite Hf, Hp, bind_lift_ok.
    unfold bind at 1. rewrite Hc. unfold bind. rewrite Hs. reflexivity.
  - reflexivity.
  - reflexivity.
Qed.

(** X7: a failed login creates no session: with an unknown name the
    world is the one the lookup left, with a wrong password the one the
    password check left, whatever [create_session] would do. *)
Theorem login_post_failure_creates_no_session
    (req : Request) (a : Args) (w w1 : World) (d : dict) (name password : value) :
  user (ctx req) = None ->
  json req = VDict d ->
  dict_get d "username" = Some name ->
  dict_get d "password" = Some password ->
  (fetch_by_name name w = (Ok None, w1) ->
     login_post fetch_by_name check_password create_session py_str req a w
     = (Ok wrong_credentials, w1))
  /\ (forall u w2,
        fetch_by_name name w = (Ok (Some u), w1) ->
        check_password u (py_str password) w1 = (Ok false, w2) ->
        login_post fetch_by_name check_password create_session py_str req a w
        = (Ok wrong_credentials, w2)).
Proof.
  intros Hu Hj Hn Hp. split.
  - intros Hf.
    rewrite (login_post_reaches_handler _ _ _ _ req a w d name password Hu Hj Hn Hp).
    now apply login_post_handler_unknown_name with (d := d) (name := name).
  - intros u w2 Hf Hc.
    rewrite (login_post_reaches_handler _ _ _ _ req a w d name password Hu Hj Hn Hp).
    now apply login_post_handler_wrong_password
      with (d := d) (name := name) (password := password) (u := u) (w' := w1).
Qed.

(** X8: a login request that lacks a field is answered by the guard:
    [MISSING_VALUE] for [username] when that is absent (also when
    [password] is absent too), for [password] otherwise; the user store
    is not asked, the world is untouched. *)
Theorem login_post_missing_field
    (req : Request) (a : Args) (w : World) (d : dict) :
  user (ctx req) = None ->
  json req = VDict d ->
  (dict_contains d "username" = false ->
     login_post fetch_by_name check_password create_session py_str req a w
     = (Ok (missing_value_response "username"), w))
  /\ (dict_contains d "username" = true -> dict_contains d "password" = false ->
     login_post fetch_by_name check_password create_session py_str req a w
     = (Ok (missing_value_response "password"), w)).
Proof.
  intros Hu Hj. unfold login_post, requires_login. rewrite Hu.
  cbn [bool_or_true is_set negb andb]. split.
  - intros Ha.
    now apply (requires_post_params_first_absent [] ["password"] "username") with (d := d).
  - intros Ha Hb.
    apply (requires_post_params_first_absent ["username"] [] "password") with (d := d); auto.
    intros k [<-|[]]. exact Ha.
Qed.

End LoginOutcomes.

Lemma login_post_success_returns_session_id_witness :
  let ada := mkUser "ada" "h" (VDict []) false in
  let fetch := fun n => ret (match n with VStr "ada" => Some ada | _ => None end) in
  let check := fun (_ : User) p => ret (String.eqb p "lovelace") in
  let create := fun (_ : User) => ret (mkSession "sid-1" VNone VNone VNone) in
  let str := fun v => match v with VStr s => s | _ => "" end in
  let w := mkWorld (fun _ => []) (fun _ => "t") 0 0 in
  exists r,
    login_post fetch check create str
      (mkRequest (VDict [("username", VStr "ada"); ("password", VStr "lovelace")])
                 (mkCtx None None None) [] "127.0.0.1") (mkArgs [] []) w = (Ok r, w)
    /\ status r = 200
    /\ body r = json_dumps
                  (VDict [ ("success", VStr "logged in successfully");
                           ("data", VDict [("sessionId", VStr "sid-1")]) ]).
Proof.
  intros ada fetch check create str w.
  exact (login_post_success_returns_session_id fetch check create str
           (mkRequest (VDict [("username", VStr "ada"); ("password", VStr "lovelace")])
                      (mkCtx None None None) [] "127.0.0.1")
           (mkArgs [] []) w w w w
           [("username", VStr "ada"); ("password", VStr "lovelace")]
           (VStr "ada") (VStr "lovelace") ada (mkSession "sid-1" VNone VNone VNone)
           eq_refl eq_refl eq_refl eq_refl eq_refl eq_refl eq_refl).
Defined.

Lemma login_post_failure_creates_no_session_witness :
  let fetch := fun (_ : value) => ret (@None User) in
  let check := fun (_ : User) (_ : string) => ret true in
  (* a [create_session] that would leave a trace in the world *)
  let create := fun (_ : User) (w : World) =>
                  (Ok (mkSession "sid-1" VNone VNone VNone), tick w) in
  let str := fun v => match v with VStr s => s | _ => "" end in
  let w := mkWorld (fun _ => []) (fun _ => "t") 0 0 in
  login_post fetch check create str
    (mkRequest (VDict [("username", VStr "bob"); ("password", VStr "x")])
               (mkCtx None None None) [] "127.0.0.1") (mkArgs [] []) w
  = (Ok wrong_credentials, w).
Proof.
  intros fetch check create str w.
  exact (proj1 (login_post_failure_creates_no_session fetch check create str
                  (mkRequest (VDict [("username", VStr "bob"); ("password", VStr "x")])
                             (mkCtx None None None) [] "127.0.0.1")
                  (mkArgs [] []) w w
                  [("username", VStr "bob"); ("password", VStr "x")]
                  (VStr "bob") (VStr "x") eq_refl eq_refl eq_refl eq_refl)
               eq_refl).
Defined.

Lemma login_post_missing_field_witness :
  let fetch := fun (_ : value) (w : World) => (Ok (@None User), tick w) in
  let check := fun (_ : User) (_ : string) => ret true in
  let create := fun (_ : User) => ret (mkSession "sid-1" VNone VNone VNone) in
  let str := fun v => match v with VStr s => s | _ => "" end in
  let w := mkWorld (fun _ => []) (fun _ => "t") 0 0 in
  login_post fetch check create str
    (mkRequest (VDict [("password", VStr "x")])
               (mkCtx None None None) [] "127.0.0.1") (mkArgs [] []) w
  = (Ok (missing_value_response "username"), w).
Proof.
  intros fetch check create str w.
  exact (proj1 (login_post_missing_field fetch check create str
                  (mkRequest (VDict [("password", VStr "x")])
                             (mkCtx None None None) [] "127.0.0.1")
                  (mkArgs [] []) w [("password", VStr "x")] eq_refl eq_refl)
               eq_refl).
Defined.

(** ** Logout, the account page and the login page *)

Section LogoutProperties.

Variable session_logout : Session -> M unit.

(** X9: [logout] is guarded on the user but works on the session.
    Without a user it answers [UNAUTHENTICATED] and does not log the
    session out, even when there is one; with a user and a session it
    logs that session out and answers 200; with a user and no session
    it raises [AttributeError]. *)
Theorem logout_by_context (req : Request) (a : Args) (w : World) :
  (user (ctx req) = None ->
     logout session_logout req a w = (Ok unauthenticated_response, w))
  /\ (forall u s w',
        user (ctx req) = Some u -> session (ctx req) = Some s ->
        session_logout s w = (Ok tt, w') ->
        logout session_logout req a w
        = (Ok (json_res (VDict [ ("success", VStr "logged out successfully");
                                 ("data", VDict []) ]) None), w'))
  /\ (forall u,
        user (ctx req) = Some u -> session (ctx req) = None ->
        logout session_logout req a w
        = (Raise (AttributeError "'NoneType' object has no attribute 'logout'"), w)).
Proof.
  unfold logout. split; [|split].
  - intros Hu. now apply requires_login_rejects_anonymous.
  - intros u s w' Hu Hs Hl.
    rewrite (requires_login_passes_user _ _ _ _ u Hu).
    unfold logout_handler. rewrite Hs. unfold bind. rewrite Hl. reflexivity.
  - intros u Hu Hs.
    rewrite (requires_login_passes_user _ _ _ _ u Hu).
    unfold logout_handler. rewrite Hs. reflexivity.
Qed.

End LogoutProperties.

Lemma logout_by_context_witness :
  let s := mkSession "sid-1" VNone VNone VNone in
  let w := mkWorld (fun _ => []) (fun _ => "t") 0 0 in
  logout (fun _ w => (Ok tt, tick w))
    (mkRequest VNone (mkCtx None (Some s) None) [] "127.0.0.1") (mkArgs [] []) w
  = (Ok unauthenticated_response, w)
  /\ logout (fun _ w => (Ok tt, tick w))
       (mkRequest VNone
          (mkCtx (Some (mkUser "ada" "h" (VDict []) false)) (Some s) None)
          [] "127.0.0.1") (mkArgs [] []) w
     = (Ok (json_res (VDict [ ("success", VStr "logged out successfully");
                              ("data", VDict []) ]) None), tick w).
Proof.
  intros s w. split.
  - exact (proj1 (logout_by_context (fun _ w => (Ok tt, tick w))
                    (mkRequest VNone (mkCtx None (Some s) None) [] "127.0.0.1")
                    (mkArgs [] []) w) eq_refl).
  - exact (proj1 (proj2 (logout_by_context (fun _ w => (Ok tt, tick w))
                    (mkRequest VNone
                       (mkCtx (Some (mkUser "ada" "h" (VDict []) false)) (Some s) None)
                       [] "127.0.0.1")
                    (mkArgs [] []) w))
                 (mkUser "ada" "h" (VDict []) false) s (tick w)
                 eq_refl eq_refl eq_refl).
Defined.

(** X10: [fetch_me] answers 200 with the user's name and permissions
    and with nothing else of the request: two users with the same name
    and permissions get the same response, whatever their password
    hashes, root flags and sessions.  Without a user it answers
    [UNAUTHENTICATED]. *)
Theorem fetch_me_shows_name_and_permissions (req : Request) (a : Args) (w : World) :
  (user (ctx req) = None -> fetch_me req a w = (Ok unauthenticated_response, w))
  /\ (forall u, user (ctx req) = Some u ->
        exists r,
          fetch_me req a w = (Ok r, w)
          /\ status r = 200
          /\ body r = json_dumps (VDict [ ("username", VStr (user_name u));
                                          ("permissions", user_permissions u) ])
          /\ forall req' a' w' u',
               user (ctx req') = Some u' ->
               user_name u' = user_name u ->
               user_permissions u' = user_permissions u ->
               fst (fetch_me req' a' w') = Ok r).
Proof.
  unfold fetch_me. split.
  - intros Hu. now apply requires_login_rejects_anonymous.
  - intros u Hu. eexists. split; [|split; [|split]].
    + rewrite (requires_login_passes_user _ _ _ _ u Hu).
      unfold fetch_me_handler. rewrite Hu. reflexivity.
    + reflexivity.
    + reflexivity.
    + intros req' a' w' u' Hu' Hn Hp.
      rewrite (requires_login_passes_user _ _ _ _ u' Hu').
      unfold fetch_me_handler. rewrite Hu', Hn, Hp. reflexivity.
Qed.

Lemma fetch_me_shows_name_and_permissions_witness :
  exists r,
    fetch_me
      (mkRequest VNone
         (mkCtx (Some (mkUser "ada" "hash-1" (VDict [("server.start", VBool true)]) false))
                None None) [] "127.0.0.1")
      (mkArgs [] []) (mkWorld (fun _ => []) (fun _ => "t") 0 0)
    = (Ok r, mkWorld (fun _ => []) (fun _ => "t") 0 0)
    /\ fst (fetch_me
              (mkRequest VNone
                 (mkCtx (Some (mkUser "ada" "hash-2"
                                      (VDict [("server.start", VBool true)]) true))
                        (Some (mkSession "sid" VNone VNone VNone)) None)
                 [] "10.0.0.1")
              (mkArgs [] []) (mkWorld (fun _ => []) (fun _ => "u") 1 0))
       = Ok r.
Proof.
  destruct (proj2 (fetch_me_shows_name_and_permissions
                     (mkRequest VNone
                        (mkCtx (Some (mkUser "ada" "hash-1"
                                             (VDict [("server.start", VBool true)]) false))
                               None None) [] "127.0.0.1")
                     (mkArgs [] []) (mkWorld (fun _ => []) (fun _ => "t") 0 0))
                  _ eq_refl) as (r & Hr & _ & _ & Hsame).
  exists r. split; [exact Hr|].
  apply (Hsame _ _ _ (mkUser "ada" "hash-2" (VDict [("server.start", VBool true)]) true));
    reflexivity.
Defined.

(** X11: [login_get] and [check_session] agree on every request:
    [login_get] answers 401 exactly when [check_session] reports
    [loggedIn: false], which is when the context has no session, and
    200 otherwise; neither changes the world. *)
Theorem login_get_agrees_with_check_session (req : Request) (a : Args) (w : World) :
  exists r1 r2,
    login_get req a w = (Ok r1, w)
    /\ check_session req a w = (Ok r2, w)
    /\ (status r1 = 401 <-> session (ctx req) = None)
    /\ (status r1 = 200 <-> session (ctx req) <> None)
    /\ (status r1 = 401 <-> body r2 = json_dumps (VDict [("loggedIn", VBool false)])).
Proof.
  unfold login_get, check_session, ret.
  destruct (session (ctx req)) as [s|]; cbn [is_set negb];
    eexists; eexists; (split; [reflexivity|]); (split; [reflexivity|]).
  - split; [|split]; split; intros H; try discriminate H; try reflexivity.
    discriminate.
  - split; [|split]; split; intros H; try reflexivity; try discriminate H.
    now contradiction H.
Qed.

Lemma login_get_agrees_with_check_session_witness :
  exists r1,
    login_get (mkRequest VNone (mkCtx None None None) [] "127.0.0.1")
              (mkArgs [] []) (mkWorld (fun _ => []) (fun _ => "t") 0 0)
    = (Ok r1, mkWorld (fun _ => []) (fun _ => "t") 0 0)
    /\ status r1 = 401.
Proof.
  destruct (login_get_agrees_with_check_session
              (mkRequest VNone (mkCtx None None None) [] "127.0.0.1")
              (mkArgs [] []) (mkWorld (fun _ => []) (fun _ => "t") 0 0))
    as (r1 & r2 & H1 & _ & Hs & _).
  exists r1. split; [exact H1|]. apply Hs. reflexivity.
Defined.

(** ** Tickets, when the header is there *)

Section TicketIssue.

Variable create_ticket : User -> string -> string -> M WebsocketTicket.

(** X12: for a logged-in request that has a [User-Agent] header,
    [open_ticket] issues one ticket for the user with the request's
    address and the header's text, or with ["unknown agent"] when the
    header is empty, and answers 200 with the ticket's token; without a
    user it answers [UNAUTHENTICATED] and issues nothing. *)
Theorem open_ticket_passes_origin_and_agent
    (req : Request) (a : Args) (w : World) :
  (forall u agent t w',
      user (ctx req) = Some u ->
      headers_get (headers req) "User-Agent" = Some agent ->
      create_ticket u (ip req) (if String.eqb agent "" then "unknown agent" else agent) w
      = (Ok t, w') ->
      exists r,
        open_ticket create_ticket req a w = (Ok r, w')
        /\ status r = 200
        /\ body r = json_dumps (VDict [ ("success", VStr "ticket created");
                                        ("data", VDict [("token", VStr (token t))]) ]))
  /\ (user (ctx req) = None ->
      open_ticket create_ticket req a w = (Ok unauthenticated_response, w)).
Proof.
  split.
  - intros u agent t w' Hu Hh Hc. eexists. split.
    + apply open_ticket_agent_present with (u := u) (agent := agent); auto.
      unfold str_or, truthy. destruct (String.eqb agent ""); exact Hc.
    + split; reflexivity.
  - intros Hu. unfold open_ticket. now apply requires_login_rejects_anonymous.
Qed.

End TicketIssue.

Lemma open_ticket_passes_origin_and_agent_witness :
  let issue := fun (u : User) (origin agent : string) =>
                 ret (mkTicket (origin ++ "/" ++ agent) VNone origin agent) in
  let ada := mkUser "ada" "h" (VDict []) false in
  let w := mkWorld (fun _ => []) (fun _ => "t") 0 0 in
  exists r,
    open_ticket issue
      (mkRequest VNone (mkCtx (Some ada) None None) [("user-agent", "")] "10.0.0.7")
      (mkArgs [] []) w = (Ok r, w)
    /\ body r = json_dumps (VDict [ ("success", VStr "ticket created");
                                    ("data", VDict [("token", VStr "10.0.0.7/unknown agent")]) ]).
Proof.
  intros issue ada w.
  destruct (proj1 (open_ticket_passes_origin_and_agent issue
                     (mkRequest VNone (mkCtx (Some ada) None None)
                                [("user-agent", "")] "10.0.0.7")
                     (mkArgs [] []) w)
                  ada "" (mkTicket "10.0.0.7/unknown agent" VNone "10.0.0.7" "unknown agent")
                  w eq_refl eq_refl eq_refl) as (r & Hr & _ & Hb).
  exists r. split; [exact Hr|exact Hb].
Defined.

(** X13: documents of the ticket collection that have no field
    [ticket] never make [get_new_ticket] draw again: when no document
    has the field, the first token of the random source is returned
    after one test of the loop, whatever else the documents hold. *)
Theorem get_new_ticket_ignores_other_fields (w : World) (fuel : nat) :
  (forall doc, In doc (db w "wsticket") -> dict_get doc "ticket" = None) ->
  (1 <= fuel)%nat ->
  get_new_ticket fuel w = Some (candidate w 0, after_draws w 1).
Proof.
  intros Hnone Hfuel. rewrite get_new_ticket_unfold.
  apply (get_new_ticket_loop_runs w 0 0 fuel).
  - intros j Hj. lia.
  - destruct (collides w (candidate w (0 + 0))) eqn:E; [|reflexivity].
    apply collides_unconsumed in E. destruct E as (doc & Hin & Hg).
    rewrite (Hnone doc Hin) in Hg. discriminate.
  - lia.
Qed.

(** The store holds a ticket under the field [token], with the very
    text the random source hands out first. *)
Lemma get_new_ticket_ignores_other_fields_witness :
  let store := fun c => if String.eqb c "wsticket"
                        then [[("token", VStr "t0"); ("userId", VObjectId "0a")]]
                        else [] in
  get_new_ticket 1 (mkWorld store (fun _ => "t0") 0 0)
  = Some ("t0", mkWorld store (fun _ => "t0") 1 0).
Proof.
  intros store.
  apply (get_new_ticket_ignores_other_fields (mkWorld store (fun _ => "t0") 0 0) 1).
  - intros doc [<-|[]]. reflexivity.
  - apply le_n.
Defined.

(** * The encoder and the envelope *)

Lemma value_nested_ind (P : value -> Prop) :
  P VNone ->
  (forall b, P (VBool b)) ->
  (forall z, P (VInt z)) ->
  (forall s, P (VStr s)) ->
  (forall l, Forall P l -> P (VList l)) ->
  (forall d, Forall (fun kv => P (snd kv)) d -> P (VDict d)) ->
  (forall hex, P (VObjectId hex)) ->
  (forall l, Forall P l -> P (VSet l)) ->
  forall v, P v.
Proof.
  intros HN HB HI HS HL HD HO HT.
  fix IH 1. intros [ |b|z|s|l|d|hex|l].
  - exact HN.
  - apply HB.
  - apply HI.
  - apply HS.
  - apply HL. induction l as [|x l IHl]; constructor; [apply IH|exact IHl].
  - apply HD. induction d as [|[k x] d IHd]; constructor; [apply IH|exact IHd].
  - apply HO.
  - apply HT. induction l as [|x l IHl]; constructor; [apply IH|exact IHl].
Qed.

Lemma map_ext_Forall {A B} (f g : A -> B) (l : list A) :
  Forall (fun x => f x = g x) l -> map f l = map g l.
Proof.
  induction 1; simpl; congruence.
Qed.

(** X14: [json_response] "translates ObjectIds to str": the body of a
    value is the body of the same value with every [ObjectId] replaced
    by its string and every set by a list, however deep they sit; and
    that value holds nothing else than JSON has. *)
Theorem json_dumps_translates_objectids (v : value) :
  json_dumps v = json_dumps (plain v)
  /\ is_plain (plain v) = true
  /\ (forall status, body (json_response v status) = body (json_response (plain v) status))
  /\ (is_plain v = true -> plain v = v).
Proof.
  assert (H : json_dumps v = json_dumps (plain v)
              /\ is_plain (plain v) = true
              /\ (is_plain v = true -> plain v = v)).
  { induction v as [ |b|z|s|l IHl|d IHd|hex|l IHl] using value_nested_ind;
      simpl; try (repeat split; reflexivity).
    - split; [|split].
      + rewrite map_map. f_equal. f_equal. f_equal.
        apply map_ext_Forall. eapply Forall_impl; [|exact IHl]. now intros x [Hx _].
      + induction IHl as [|x l [_ [Hx _]] _ IH]; simpl; [reflexivity|].
        now rewrite Hx.
      + intros Hp. f_equal.
        induction IHl as [|x l [_ [_ Hx]] _ IH]; simpl in *; [reflexivity|].
        apply andb_true_iff in Hp. destruct Hp as [Hp1 Hp2].
        now rewrite Hx, IH.
    - split; [|split].
      + rewrite map_map. f_equal. f_equal. f_equal.
        apply map_ext_Forall. eapply Forall_impl; [|exact IHd].
        intros [k x] [Hx _]. simpl in Hx. now rewrite Hx.
      + induction IHd as [|[k x] d [_ [Hx _]] _ IH]; simpl in *; [reflexivity|].
        now rewrite Hx.
      + intros Hp. f_equal.
        induction IHd as [|[k x] d [_ [_ Hx]] _ IH]; simpl in *; [reflexivity|].
        apply andb_true_iff in Hp. destruct Hp as [Hp1 Hp2].
        now rewrite Hx, IH.
    - repeat split. discriminate.
    - split; [|split].
      + rewrite map_map. f_equal. f_equal. f_equal.
        apply map_ext_Forall. eapply Forall_impl; [|exact IHl]. now intros x [Hx _].
      + induction IHl as [|x l [_ [Hx _]] _ IH]; simpl; [reflexivity|].
        now rewrite Hx.
      + discriminate. }
  destruct H as (H1 & H2 & H3).
  split; [exact H1|]. split; [exact H2|]. split; [|exact H3].
  intros status. unfold json_response. simpl. now rewrite H1.
Qed.

Lemma json_dumps_translates_objectids_witness :
  plain (VDict [("ids", VList [VInt 1; VStr "0a"])])
  = VDict [("ids", VList [VInt 1; VStr "0a"])].
Proof.
  exact (proj2 (proj2 (proj2 (json_dumps_translates_objectids
                                (VDict [("ids", VList [VInt 1; VStr "0a"])]))))
               eq_refl).
Defined.

Lemma dict_set_fresh (d : dict) (k : string) (v : value) :
  dict_contains d k = false -> dict_set d k v = (d ++ [(k, v)])%list.
Proof.
  unfold dict_contains, dict_keys.
  induction d as [|[k' v'] rest IH]; simpl; [reflexivity|].
  rewrite (String.eqb_sym k k').
  destruct (String.eqb k' k); [discriminate|].
  intros H. now rewrite IH.
Qed.

Lemma dict_contains_app (d1 d2 : dict) (k : string) :
  dict_contains (d1 ++ d2)%list k = (dict_contains d1 k || dict_contains d2 k)%bool.
Proof.
  unfold dict_contains, dict_keys.
  induction d1 as [|[k' v'] rest IH]; simpl; [reflexivity|].
  destruct (String.eqb k k'); [reflexivity|exact IH].
Qed.

(** X15: the envelope [json_error] encodes has the extra fields first,
    unchanged and in the order given, then [error], then [description],
    and the response has the status of the kind. *)
Theorem json_error_layout (error : string * Z) (description : string)
    (additional : dict) :
  dict_contains additional "error" = false ->
  dict_contains additional "description" = false ->
  exists code_field,
    json_error error description additional
    = json_response
        (VDict (additional ++ [ ("error", VStr code_field);
                                ("description", VStr description) ])%list)
        (Some (snd error))
    /\ status (json_error error description additional) = snd error
    /\ content_type (json_error error description additional) = "application/json".
Proof.
  intros He Hd. eexists. split; [|split; reflexivity].
  unfold json_error, dict_display. simpl.
  rewrite (dict_set_fresh additional "error" _ He).
  rewrite dict_set_fresh.
  - now rewrite <- app_assoc.
  - rewrite dict_contains_app, Hd. reflexivity.
Qed.

Lemma json_error_layout_witness :
  exists code_field,
    body (json_error APIError.MISSING_VALUE "you need to specify a" [("field", VStr "a")])
    = json_dumps (VDict [ ("field", VStr "a");
                          ("error", VStr code_field);
                          ("description", VStr "you need to specify a") ]).
Proof.
  destruct (json_error_layout APIError.MISSING_VALUE "you need to specify a"
              [("field", VStr "a")] eq_refl eq_refl) as (code_field & H & _).
  exists code_field. now rewrite H.
Defined.

(** X16: in the taxonomy no two kinds share a code, so the code in an
    envelope names one kind and one status; and every status is one of
    400, 401, 403, 404, 423, 500. *)
Theorem APIError_codes_identify_kinds (e1 e2 : string * Z) :
  In e1 APIError.all -> In e2 APIError.all ->
  (fst e1 = fst e2 -> e1 = e2)
  /\ In (snd e1) [400; 401; 403; 404; 423; 500].
Proof.
  intros H1 H2. split.
  - unfold APIError.all in H1, H2. simpl in H1, H2.
    repeat (destruct H1 as [<-|H1]; [| ]); try contradiction;
      (repeat (destruct H2 as [<-|H2]; [| ]); try contradiction;
       intros H; first [reflexivity | discriminate H]).
  - unfold APIError.all in H1. simpl in H1.
    repeat (destruct H1 as [<-|H1]; [simpl; tauto| ]). contradiction.
Qed.

Lemma APIError_codes_identify_kinds_witness :
  In (snd APIError.INVALID_SERVER_STATUS) [400; 401; 403; 404; 423; 500].
Proof.
  refine (proj2 (APIError_codes_identify_kinds
                   APIError.INVALID_SERVER_STATUS APIError.NO_PERMISSION _ _));
    simpl; tauto.
Defined.

(** * Configuration *)

Lemma str_in_In (k : string) (l : list string) :
  str_in k l = true <-> In k l.
Proof.
  induction l as [|x l IH]; simpl.
  - split; [discriminate|tauto].
  - destruct (String.eqb k x) eqn:E.
    + apply String.eqb_eq in E. subst. tauto.
    + apply String.eqb_neq in E. rewrite IH. split; [tauto|].
      intros [H|H]; [congruence|exact H].
Qed.

Lemma load_attrs_dict (keys : list (string * (string * value))) (d : dict) :
  forall c,
    Config.load_attrs keys (VDict d) c
    = (Ok tt,
       Config.mk (Config.SEMOXY_INSTANCE c)
         (fold_left (fun acc e => dict_set acc (fst e)
                                    (lookup_or d (fst (snd e)) (snd (snd e))))
                    keys (Config.attrs c))).
Proof.
  induction keys as [|[attr [key default]] rest IH]; intros c; simpl.
  - now destruct c.
  - unfold dict_getitem, lookup_or.
    destruct (dict_get d key) as [v|]; rewrite IH; reflexivity.
Qed.

Lemma fold_set_get_other (d : dict) (keys : list (string * (string * value)))
    (attr : string) :
  forall acc,
    ~ In attr (map fst keys) ->
    dict_get (fold_left (fun acc e => dict_set acc (fst e)
                                        (lookup_or d (fst (snd e)) (snd (snd e))))
                        keys acc) attr
    = dict_get acc attr.
Proof.
  induction keys as [|e rest IH]; intros acc Hn; simpl; [reflexivity|].
  rewrite IH.
  - apply dict_get_set_other. intros Heq. apply Hn. now left.
  - intros Hin. apply Hn. now right.
Qed.

Lemma fold_set_get (d : dict) (keys : list (string * (string * value)))
    (attr key : string) (default : value) :
  forall acc,
    NoDup (map fst keys) ->
    In (attr, (key, default)) keys ->
    dict_get (fold_left (fun acc e => dict_set acc (fst e)
                                        (lookup_or d (fst (snd e)) (snd (snd e))))
                        keys acc) attr
    = Some (lookup_or d key default).
Proof.
  induction keys as [|e rest IH]; intros acc Hnd Hin; [contradiction|].
  simpl in Hnd. inversion Hnd as [|x l Hx Hrest]; subst. simpl.
  destruct Hin as [->|Hin].
  - simpl. rewrite fold_set_get_other by exact Hx. apply dict_get_set_same.
  - now apply IH.
Qed.

Lemma ATTR_KEYS_distinct : NoDup (map fst Config.ATTR_KEYS).
Proof.
  simpl. repeat constructor; simpl; intuition discriminate.
Qed.

Lemma strip_all_space (s : string) : all_space s = true -> strip s = "".
Proof.
  unfold strip. induction s as [|c rest IH]; simpl; [reflexivity|].
  intros H. apply andb_true_iff in H. destruct H as [Hc Hr].
  rewrite Hc. now apply IH.
Qed.

Section LoadProperties.

Variable json_loads : string -> result value.

Lemma load_on_object
    (fs : string -> option string) (mcweb : Config.Semoxy) (c : Config.t)
    (text : string) (d : dict) :
  Config.config_text fs = Done text ->
  json_loads text = Ok (VDict d) ->
  exists c',
    Config.load json_loads fs mcweb c = (Done tt, c')
    /\ Config.SEMOXY_INSTANCE c' = Some mcweb
    /\ (forall attr key default,
          In (attr, (key, default)) Config.ATTR_KEYS ->
          Config.getattr c' attr = Ok (lookup_or d key default))
    /\ (forall attr,
          ~ In attr (map fst Config.ATTR_KEYS) ->
          dict_get (Config.attrs c') attr = dict_get (Config.attrs c) attr).
Proof.
  intros Ht Hj. unfold Config.load. rewrite Ht, Hj, load_attrs_dict.
  eexists. split; [reflexivity|]. split; [reflexivity|]. split.
  - intros attr key default Hin. unfold Config.getattr. cbn [Config.attrs].
    rewrite (fold_set_get d Config.ATTR_KEYS attr key default _ ATTR_KEYS_distinct Hin).
    reflexivity.
  - intros attr Hn. cbn [Config.attrs]. now apply fold_set_get_other.
Qed.

(** X17: when the configuration text parses to a JSON object, [load]
    ends without an exception; it has stored the application object,
    and every attribute of [ATTR_KEYS] holds the value under its key in
    the object, or its default when the object has no such key; no
    other attribute changes. *)
Theorem load_sets_every_attribute
    (fs : string -> option string) (mcweb : Config.Semoxy) (c : Config.t)
    (text : string) (d : dict) :
  Config.config_text fs = Done text ->
  json_loads text = Ok (VDict d) ->
  exists c',
    Config.load json_loads fs mcweb c = (Done tt, c')
    /\ Config.SEMOXY_INSTANCE c' = Some mcweb
    /\ (forall attr key default,
          In (attr, (key, default)) Config.ATTR_KEYS ->
          Config.getattr c' attr = Ok (lookup_or d key default))
    /\ (forall attr,
          ~ In attr (map fst Config.ATTR_KEYS) ->
          dict_get (Config.attrs c') attr = dict_get (Config.attrs c) attr).
Proof.
  exact (load_on_object fs mcweb c text d).
Qed.

(** X18: when the configuration text parses to anything but a JSON
    object (a list, a number, a string, [null]), [load] raises
    [TypeError] at the first attribute: the application object is
    stored and no attribute is changed. *)
Theorem load_rejects_non_object
    (fs : string -> option string) (mcweb : Config.Semoxy) (c : Config.t)
    (text : string) (data : value) :
  Config.config_text fs = Done text ->
  json_loads text = Ok data ->
  (forall d, data <> VDict d) ->
  exists msg,
    Config.load json_loads fs mcweb c
    = (Failed (PyError (TypeError msg)), Config.mk (Some mcweb) (Config.attrs c)).
Proof.
  intros Ht Hj Hn. unfold Config.load. rewrite Ht, Hj.
  destruct data; try (eexists; reflexivity).
  exfalso. exact (Hn _ eq_refl).
Qed.

(** X19: for a freshly started process, an attribute whose key the
    configuration lacks ends with the value the class body gave it,
    except [PEPPER]: the class body has the empty string, [load] leaves
    ["20 rndm pepper bytes"]. *)
Theorem load_defaults_against_class_body
    (fs : string -> option string) (mcweb : Config.Semoxy)
    (text : string) (d : dict) :
  Config.config_text fs = Done text ->
  json_loads text = Ok (VDict d) ->
  exists c',
    Config.load json_loads fs mcweb Config.initial = (Done tt, c')
    /\ (forall attr key default,
          In (attr, (key, default)) Config.ATTR_KEYS ->
          dict_get d key = None ->
          attr <> "PEPPER" ->
          Config.getattr c' attr = Config.getattr Config.initial attr)
    /\ (dict_get d "pepper" = None ->
          Config.getattr c' "PEPPER" = Ok (VStr "20 rndm pepper bytes")
          /\ Config.getattr Config.initial "PEPPER" = Ok (VStr "")).
Proof.
  intros Ht Hj.
  destruct (load_on_object fs mcweb Config.initial text d Ht Hj)
    as (c' & Hl & _ & Hattr & _).
  exists c'. split; [exact Hl|]. split.
  - intros attr key default Hin Hnone Hne.
    rewrite (Hattr attr key default Hin). unfold lookup_or. rewrite Hnone.
    simpl in Hin.
    repeat (destruct Hin as [[= <- <- <-]|Hin]; [try reflexivity; now contradiction Hne|]).
    contradiction.
  - intros Hnone. split; [|reflexivity].
    rewrite (Hattr "PEPPER" "pepper" (VStr "20 rndm pepper bytes")).
    + unfold lookup_or. now rewrite Hnone.
    + simpl. tauto.
Qed.

End LoadProperties.

(** X20: the text [load] parses is the docker secret [config], stripped
    of white space, when that file is there and has more than white
    space, and then [config.json] is not opened; in every other case it
    is the content of [config.json], and a missing [config.json] is a
    [FileNotFoundError]. *)
Theorem config_text_prefers_secret (fs : string -> option string) :
  (forall secret,
      fs "/run/secrets/config" = Some secret -> strip secret <> "" ->
      Config.config_text fs = Done (strip secret))
  /\ (forall secret,
        fs "/run/secrets/config" = Some secret -> all_space secret = true ->
        Config.config_text fs = read_file fs "config.json")
  /\ (fs "/run/secrets/config" = None ->
        Config.config_text fs = read_file fs "config.json")
  /\ (fs "config.json" = None ->
        read_file fs "config.json" = Failed (FileNotFoundError "config.json")).
Proof.
  unfold Config.config_text, Config.get_docker_secret, read_file.
  change ("/run/secrets/" ++ "config") with "/run/secrets/config".
  split; [|split; [|split]].
  - intros secret Hs Hne. rewrite Hs. unfold truthy.
    destruct (String.eqb (strip secret) "") eqn:E; [|reflexivity].
    apply String.eqb_eq in E. contradiction.
  - intros secret Hs Hsp. rewrite Hs, (strip_all_space _ Hsp). reflexivity.
  - intros Hs. rewrite Hs. reflexivity.
  - intros Hc. rewrite Hc. reflexivity.
Qed.

Lemma load_sets_every_attribute_witness :
  let fs := fun p => if String.eqb p "config.json" then Some "{maxRam: 8}" else None in
  let loads := fun (_ : string) => Ok (VDict [("maxRam", VInt 8)]) in
  exists c',
    Config.load loads fs (Config.mkSemoxy (VStr "203.0.113.5")) Config.initial
    = (Done tt, c')
    /\ Config.getattr c' "MAX_RAM" = Ok (VInt 8)
    /\ Config.getattr c' "DB_PATH" = Ok (VStr "data.db").
Proof.
  intros fs loads.
  destruct (load_sets_every_attribute loads fs (Config.mkSemoxy (VStr "203.0.113.5"))
              Config.initial "{maxRam: 8}" [("maxRam", VInt 8)] eq_refl eq_refl)
    as (c' & Hl & _ & Hattr & _).
  exists c'. split; [exact Hl|]. split.
  - apply (Hattr "MAX_RAM" "maxRam" (VInt 2)). simpl. tauto.
  - apply (Hattr "DB_PATH" "dbPath" (VStr "data.db")). simpl. tauto.
Defined.

Lemma load_rejects_non_object_witness :
  let fs := fun p => if String.eqb p "config.json" then Some "[]" else None in
  let loads := fun (_ : string) => Ok (VList []) in
  exists msg,
    Config.load loads fs (Config.mkSemoxy VNone) Config.initial
    = (Failed (PyError (TypeError msg)),
       Config.mk (Some (Config.mkSemoxy VNone)) (Config.attrs Config.initial)).
Proof.
  intros fs loads.
  apply (load_rejects_non_object loads fs (Config.mkSemoxy VNone) Config.initial
           "[]" (VList []) eq_refl eq_refl).
  intros d. discriminate.
Defined.

Lemma load_defaults_against_class_body_witness :
  let fs := fun p => if String.eqb p "config.json" then Some "{}" else None in
  let loads := fun (_ : string) => Ok (VDict []) in
  exists c',
    Config.load loads fs (Config.mkSemoxy VNone) Config.initial = (Done tt, c')
    /\ Config.getattr c' "PEPPER" = Ok (VStr "20 rndm pepper bytes")
    /\ Config.getattr c' "SESSION_EXPIRATION" = Ok (VInt 7200).
Proof.
  intros fs loads.
  destruct (load_defaults_against_class_body loads fs (Config.mkSemoxy VNone)
              "{}" [] eq_refl eq_refl) as (c' & Hl & Hsame & Hpepper).
  exists c'. split; [exact Hl|]. split.
  - exact (proj1 (Hpepper eq_refl)).
  - rewrite (Hsame "SESSION_EXPIRATION" "sessionExpiration" (VInt 7200)).
    + reflexivity.
    + simpl. tauto.
    + reflexivity.
    + discriminate.
Defined.

Lemma config_text_prefers_secret_witness :
  let fs := fun p => if String.eqb p "/run/secrets/config" then Some " {}  "
                     else None in
  Config.config_text fs = Done "{}".
Proof.
  intros fs.
  apply (proj1 (config_text_prefers_secret fs) " {}  ").
  - reflexivity.
  - discriminate.
Defined.

(** ** [public_json] *)

Lemma java_versions_loop_map (installations : list (string * value)) :
  forall acc,
    NoDup (dict_keys installations) ->
    (forall k, In k (dict_keys installations) -> dict_contains acc k = false) ->
    (forall k v, In (k, v) installations ->
                 exists name, getitem v "displayName" = Ok name) ->
    Config.java_versions_loop installations acc
    = Ok (acc ++ map (fun kv => (fst kv, display_name (snd kv))) installations)%list.
Proof.
  induction installations as [|[k v] rest IH]; intros acc Hnd Hfresh Hname; simpl.
  - now rewrite app_nil_r.
  - destruct (Hname k v (or_introl eq_refl)) as (name & Hn).
    unfold display_name at 1. rewrite Hn.
    simpl in Hnd. inversion Hnd as [|x l Hk Hrest]; subst.
    rewrite (dict_set_fresh acc k name) by (apply Hfresh; now left).
    rewrite IH.
    + now rewrite <- app_assoc.
    + exact Hrest.
    + intros k' Hk'. rewrite dict_contains_app, (Hfresh k') by now right.
      simpl. unfold dict_contains. simpl.
      destruct (String.eqb k' k) eqn:E; [|reflexivity].
      apply String.eqb_eq in E. subst. contradiction.
    + intros k' v' Hin. apply (Hname k' v'). now right.
Qed.

(** X21: [public_json] on a configuration whose [JAVA] attribute has no
    key [installations] raises [KeyError]; that is the state in which
    [load] leaves a fresh process when the configuration has no
    [javaSettings]. *)
Theorem public_json_needs_installations
    (json_loads : string -> result value)
    (fs : string -> option string) (mcweb : Config.Semoxy)
    (text : string) (d : dict) :
  Config.config_text fs = Done text ->
  json_loads text = Ok (VDict d) ->
  dict_get d "javaSettings" = None ->
  exists c',
    Config.load json_loads fs mcweb Config.initial = (Done tt, c')
    /\ Config.public_json c' = Raise (KeyError "installations").
Proof.
  intros Ht Hj Hnone.
  destruct (load_on_object json_loads fs mcweb Config.initial text d Ht Hj)
    as (c' & Hl & _ & Hattr & _).
  exists c'. split; [exact Hl|].
  unfold Config.public_json.
  rewrite (Hattr "JAVA" "javaSettings" (VDict [])) by (simpl; tauto).
  unfold lookup_or. rewrite Hnone. reflexivity.
Qed.

Lemma public_json_needs_installations_witness :
  let fs := fun p => if String.eqb p "config.json" then Some "{}" else None in
  let loads := fun (_ : string) => Ok (VDict []) in
  exists c',
    Config.load loads fs (Config.mkSemoxy VNone) Config.initial = (Done tt, c')
    /\ Config.public_json c' = Raise (KeyError "installations").
Proof.
  intros fs loads.
  exact (public_json_needs_installations loads fs (Config.mkSemoxy VNone)
           "{}" [] eq_refl eq_refl eq_refl).
Defined.

(** X22: when every installation under [JAVA.installations] has a
    [displayName], [public_json] returns [javaVersions] with the
    installations' keys in their order, each with its display name,
    then [maxRam] and [publicIP]. *)
Theorem public_json_lists_display_names
    (c : Config.t) (java max_ram : value) (installations : dict)
    (instance : Config.Semoxy) :
  Config.getattr c "JAVA" = Ok java ->
  getitem java "installations" = Ok (VDict installations) ->
  NoDup (dict_keys installations) ->
  (forall k v, In (k, v) installations ->
               exists name, getitem v "displayName" = Ok name) ->
  Config.getattr c "MAX_RAM" = Ok max_ram ->
  Config.SEMOXY_INSTANCE c = Some instance ->
  Config.public_json c
  = Ok (VDict [ ("javaVersions",
                 VDict (map (fun kv => (fst kv, display_name (snd kv))) installations));
                ("maxRam", max_ram);
                ("publicIP", Config.public_ip instance) ]).
Proof.
  intros Hj Hi Hnd Hname Hm Hs. unfold Config.public_json.
  rewrite Hj, Hi. cbn [Config.items].
  rewrite (java_versions_loop_map installations [] Hnd); auto.
  rewrite Hm, Hs. reflexivity.
Qed.

Lemma public_json_lists_display_names_witness :
  Config.public_json
    (Config.mk (Some (Config.mkSemoxy (VStr "203.0.113.5")))
       [ ("JAVA", VDict [("installations",
                          VDict [ ("8", VDict [("displayName", VStr "Java 8");
                                               ("path", VStr "/opt/j8")]);
                                  ("17", VDict [("path", VStr "/opt/j17");
                                                ("displayName", VStr "Java 17")]) ])]);
         ("MAX_RAM", VInt 4);
         ("PEPPER", VStr "secret") ])
  = Ok (VDict [ ("javaVersions", VDict [("8", VStr "Java 8"); ("17", VStr "Java 17")]);
                ("maxRam", VInt 4);
                ("publicIP", VStr "203.0.113.5") ]).
Proof.
  apply (public_json_lists_display_names _
           (VDict [("installations",
                    VDict [ ("8", VDict [("displayName", VStr "Java 8");
                                         ("path", VStr "/opt/j8")]);
                            ("17", VDict [("path", VStr "/opt/j17");
                                          ("displayName", VStr "Java 17")]) ])])
           (VInt 4)
           [ ("8", VDict [("displayName", VStr "Java 8"); ("path", VStr "/opt/j8")]);
             ("17", VDict [("path", VStr "/opt/j17"); ("displayName", VStr "Java 17")]) ]
           (Config.mkSemoxy (VStr "203.0.113.5"))).
  - reflexivity.
  - reflexivity.
  - simpl. repeat constructor; simpl; intuition discriminate.
  - intros k v [[= <- <-]|[[= <- <-]|[]]]; eexists; reflexivity.
  - reflexivity.
  - reflexivity.
Defined.

(** X23: [public_json] shows nothing of the configuration but [JAVA],
    [MAX_RAM] and the public address: two configurations that agree on
    these three give the same result, whatever their [PEPPER], [MONGO]
    and other attributes are. *)
Theorem public_json_reads_three_attributes (c c' : Config.t) :
  Config.getattr c "JAVA" = Config.getattr c' "JAVA" ->
  Config.getattr c "MAX_RAM" = Config.getattr c' "MAX_RAM" ->
  option_map Config.public_ip (Config.SEMOXY_INSTANCE c)
  = option_map Config.public_ip (Config.SEMOXY_INSTANCE c') ->
  Config.public_json c = Config.public_json c'.
Proof.
  intros Hj Hm Hs. unfold Config.public_json. rewrite Hj, Hm.
  destruct (Config.getattr c' "JAVA") as [java|e]; [|reflexivity].
  destruct (getitem java "installations") as [inst|e]; [|reflexivity].
  destruct (Config.items inst) as [pairs|e]; [|reflexivity].
  destruct (Config.java_versions_loop pairs []) as [jv|e]; [|reflexivity].
  destruct (Config.getattr c' "MAX_RAM") as [m|e]; [|reflexivity].
  destruct (Config.SEMOXY_INSTANCE c) as [i|], (Config.SEMOXY_INSTANCE c') as [i'|];
    simpl in Hs; try discriminate; [|reflexivity].
  injection Hs as ->. reflexivity.
Qed.

Lemma public_json_reads_three_attributes_witness :
  Config.public_json
    (Config.mk (Some (Config.mkSemoxy (VStr "203.0.113.5")))
       [("JAVA", VDict [("installations", VDict [])]); ("MAX_RAM", VInt 4);
        ("PEPPER", VStr "pepper-1")])
  = Config.public_json
      (Config.mk (Some (Config.mkSemoxy (VStr "203.0.113.5")))
         [("PEPPER", VStr "pepper-2"); ("MONGO", VDict [("password", VStr "x")]);
          ("MAX_RAM", VInt 4); ("JAVA", VDict [("installations", VDict [])])]).
Proof.
  exact (public_json_reads_three_attributes _ _ eq_refl eq_refl eq_refl).
Defined.

(** * The root secret *)

(** X24: after [renew_root_creation_token], [get_root_creation_token]
    returns the token the random source handed out, and after a second
    renewal the second token: the file holds the last secret only.  A
    renewal draws one token, prints one line and touches no other file.
    Without the file, reading the secret is a [FileNotFoundError]. *)
Theorem root_creation_token_round_trip (h : Host) :
  get_root_creation_token (renew_root_creation_token h)
  = Done (candidate (world h) 0)
  /\ get_root_creation_token (renew_root_creation_token (renew_root_creation_token h))
     = Done (candidate (world h) 1)
  /\ (forall p, p <> "root.txt" -> files (renew_root_creation_token h) p = files h p)
  /\ world (renew_root_creation_token h) = after_draws (world h) 1
  /\ stdout (renew_root_creation_token h)
     = (stdout h ++ ["regenerating root user creation secret"])%list
  /\ (files h "root.txt" = None ->
      get_root_creation_token h = Failed (FileNotFoundError "root.txt")).
Proof.
  unfold get_root_creation_token, renew_root_creation_token, read_file, write_file,
    candidate, after_draws. simpl.
  rewrite Nat.add_0_r, !Nat.add_1_r.
  repeat split.
  - intros p Hp. destruct (String.eqb p "root.txt") eqn:E; [|reflexivity].
    apply String.eqb_eq in E. contradiction.
  - intros H. now rewrite H.
Qed.

Lemma root_creation_token_round_trip_witness :
  let h := mkHost (fun _ => None) []
                  (mkWorld (fun _ => []) (fun n => match n with O => "s0" | _ => "s1" end) 0 0) in
  get_root_creation_token h = Failed (FileNotFoundError "root.txt")
  /\ get_root_creation_token (renew_root_creation_token h) = Done "s0".
Proof.
  intros h. split.
  - exact (proj2 (proj2 (proj2 (proj2 (proj2 (root_creation_token_round_trip h)))))
                 eq_refl).
  - exact (proj1 (root_creation_token_round_trip h)).
Defined.

(** * [get_dummy_objid] *)

Lemma string_length_app (s1 s2 : string) :
  String.length (s1 ++ s2) = (String.length s1 + String.length s2)%nat.
Proof.
  induction s1 as [|c s1 IH]; simpl; [reflexivity|]. now rewrite IH.
Qed.

Lemma string_app_assoc (s1 s2 s3 : string) :
  (s1 ++ s2) ++ s3 = s1 ++ (s2 ++ s3).
Proof.
  induction s1 as [|c s1 IH]; simpl; [reflexivity|]. now rewrite IH.
Qed.

Lemma hex_of_length (k : nat) : forall n, String.length (hex_of k n) = k.
Proof.
  induction k as [|k IH]; intros n; simpl; [reflexivity|].
  rewrite string_length_app, IH. simpl. lia.
Qed.

Lemma hex_value_digit (d : nat) :
  (d < 16)%nat -> hex_value (Json.hex_digit d) = Some (Z.of_nat d).
Proof.
  intros H. do 16 (destruct d as [|d]; [reflexivity|]). lia.
Qed.

Lemma parse_hex_from_app (s1 s2 : string) :
  forall acc,
    parse_hex_from acc (s1 ++ s2)
    = match parse_hex_from acc s1 with
      | Some acc' => parse_hex_from acc' s2
      | None => None
      end.
Proof.
  induction s1 as [|c s1 IH]; intros acc; simpl; [reflexivity|].
  destruct (hex_value c); [apply IH|reflexivity].
Qed.

Lemma parse_hex_from_hex_of (k : nat) :
  forall n acc,
    parse_hex_from acc (hex_of k n)
    = Some (acc * 16 ^ Z.of_nat k + n mod 16 ^ Z.of_nat k).
Proof.
  induction k as [|k IH]; intros n acc.
  - simpl. rewrite Z.mod_1_r. f_equal. lia.
  - cbn [hex_of]. rewrite parse_hex_from_app, IH. cbn [parse_hex_from].
    assert (Hd : (Z.to_nat (n mod 16) < 16)%nat).
    { pose proof (Z.mod_pos_bound n 16 ltac:(lia)). lia. }
    rewrite (hex_value_digit _ Hd), Z2Nat.id
      by (pose proof (Z.mod_pos_bound n 16 ltac:(lia)); lia).
    f_equal. rewrite Nat2Z.inj_succ, Z.pow_succ_r by lia.
    rewrite (Z.rem_mul_r n 16 (16 ^ Z.of_nat k)) by lia.
    ring.
Qed.

Lemma hex_len_eight (n : Z) :
  268435456 <= n < 4294967296 -> hex_len n = 8%nat.
Proof.
  intros [Hlo Hhi]. unfold hex_len.
  assert (H1 : 28 <= Z.log2 n).
  { apply (Z.log2_le_pow2 n 28); [lia|]. change (2 ^ 28) with 268435456. exact Hlo. }
  assert (H2 : Z.log2 n < 32).
  { apply (Z.log2_lt_pow2 n 32); [lia|]. change (2 ^ 32) with 4294967296. exact Hhi. }
  assert (H3 : Z.log2 n / 4 = 7).
  { symmetry. apply (Z.div_unique (Z.log2 n) 4 7 (Z.log2 n - 28)); lia. }
  now rewrite H3.
Qed.

Lemma hex_len_short (n : Z) :
  0 <= n < 268435456 -> (hex_len n <= 7)%nat.
Proof.
  intros [Hlo Hhi]. unfold hex_len.
  assert (H : Z.log2 n < 28).
  { destruct (Z.eq_dec n 0) as [->|Hne]; [reflexivity|].
    apply (Z.log2_lt_pow2 n 28); [lia|]. change (2 ^ 28) with 268435456. exact Hhi. }
  pose proof (Z.log2_nonneg n) as Hn.
  assert (Hq : Z.log2 n / 4 <= 6).
  { apply Z.lt_succ_r. apply Z.div_lt_upper_bound; lia. }
  assert (Hq0 : 0 <= Z.log2 n / 4) by (apply Z.div_pos; lia).
  lia.
Qed.

(** X25: for a timestamp of eight hexadecimal digits (from 0x10000000
    to 0xffffffff) the text [get_dummy_objid] hands to [ObjectId] has 24
    characters: the eight digits, which read back as the timestamp, and
    sixteen zeros.  For a smaller timestamp that is not negative the
    [%8x] conversion pads with blanks, so the text begins with a blank
    and is no hexadecimal number. *)
Theorem get_dummy_objid_hex_text (timestamp : Z) :
  (268435456 <= timestamp < 4294967296 ->
     dummy_objid_hex timestamp = hex_of 8 timestamp ++ "0000000000000000"
     /\ String.length (dummy_objid_hex timestamp) = 24%nat
     /\ parse_hex (hex_of 8 timestamp) = Some timestamp
     /\ forall (A : Type) (ObjectId : string -> A),
          get_dummy_objid ObjectId timestamp
          = ObjectId (hex_of 8 timestamp ++ "0000000000000000"))
  /\ (0 <= timestamp < 268435456 ->
     String.length (dummy_objid_hex timestamp) = 24%nat
     /\ (exists rest, dummy_objid_hex timestamp = String " " rest)
     /\ parse_hex (dummy_objid_hex timestamp) = None).
Proof.
  split.
  - intros Hr.
    assert (Hd : dummy_objid_hex timestamp = hex_of 8 timestamp ++ "0000000000000000").
    { unfold dummy_objid_hex, rjust, format_x.
      destruct (Z.ltb_spec timestamp 0) as [Hneg|_]; [lia|].
      rewrite (hex_len_eight _ Hr), hex_of_length. reflexivity. }
    split; [exact Hd|]. split; [|split].
    + rewrite Hd, string_length_app, hex_of_length. reflexivity.
    + unfold parse_hex. rewrite parse_hex_from_hex_of.
      f_equal. change (16 ^ Z.of_nat 8) with 4294967296.
      rewrite Z.mod_small by lia. lia.
    + intros A ObjectId. unfold get_dummy_objid. now rewrite Hd.
  - intros Hr. pose proof (hex_len_short _ Hr) as Hlen.
    assert (Hd : exists pad, dummy_objid_hex timestamp
                             = String " " (spaces pad ++ hex_of (hex_len timestamp) timestamp
                                             ++ "0000000000000000")
                             /\ (pad + hex_len timestamp = 7)%nat).
    { unfold dummy_objid_hex, rjust, format_x.
      destruct (Z.ltb_spec timestamp 0) as [Hneg|_]; [lia|].
      rewrite hex_of_length.
      exists (7 - hex_len timestamp)%nat. split; [|lia].
      replace (8 - hex_len timestamp)%nat with (S (7 - hex_len timestamp)) by lia.
      simpl. now rewrite string_app_assoc. }
    destruct Hd as (pad & Hd & Hpad). split; [|split].
    + assert (Hs : forall n, String.length (spaces n) = n).
      { induction n as [|n IHn]; simpl; [reflexivity|now rewrite IHn]. }
      rewrite Hd. cbn [String.length].
      rewrite !string_length_app, hex_of_length, Hs.
      change (String.length "0000000000000000") with 16%nat. lia.
    + eexists. exact Hd.
    + rewrite Hd. reflexivity.
Qed.

Lemma get_dummy_objid_hex_text_witness :
  dummy_objid_hex 1600000000 = "5f5e10000000000000000000"
  /\ parse_hex (dummy_objid_hex 255) = None.
Proof.
  split.
  - rewrite (proj1 (proj1 (get_dummy_objid_hex_text 1600000000) ltac:(lia))).
    reflexivity.
  - exact (proj2 (proj2 (proj2 (get_dummy_objid_hex_text 255) ltac:(lia)))).
Defined.
